(** * django_q: the task record store, the schedule model and the hook signal

    A shallow embedding of [django_q/models.py] and [django_q/signals.py].
    Python values are dynamically typed, so model fields that the code
    treats dynamically ([hook], the pickled [args]/[kwargs]/[result]) are
    carried as [value]; exceptions are an explicit outcome; the database
    and the logger are explicit state. *)

From Stdlib Require Import String Ascii List ZArith Bool Lia PeanoNat.
Import ListNotations.
Local Open Scope string_scope.
Local Open Scope list_scope.

(* ------------------------------------------------------------------ *)
(** * Python: exception classes and outcomes                           *)
(* ------------------------------------------------------------------ *)

Module Py.

(** The exception classes that occur in the two modules, in Django's
  [core.exceptions] and in croniter, with their base classes. *)
Inductive exn : Set :=
| BaseException
| Exception
| SystemExit
| KeyboardInterrupt
| GeneratorExit
| ValueError
| ImportError
| ModuleNotFoundError
| AttributeError
| TypeError
| IndexError
| RuntimeError
| SyntaxError
| FieldError
| FieldDoesNotExist
| ValidationError
| ObjectDoesNotExist
| MultipleObjectsReturned
| CroniterError
| CroniterBadCronError.

Definition exn_eq_dec (a b : exn) : {a = b} + {a <> b}.
Proof. decide equality. Defined.

Definition exn_eqb (a b : exn) : bool :=
if exn_eq_dec a b then true else false.

(** [base e] is the class [e] derives from ([None] for the root). *)
Definition base (e : exn) : option exn :=
match e with
| BaseException => None
| Exception | SystemExit | KeyboardInterrupt | GeneratorExit =>
    Some BaseException
| ModuleNotFoundError => Some ImportError
| CroniterError => Some ValueError
| CroniterBadCronError => Some CroniterError
| _ => Some Exception
end.

Fixpoint ancestors (depth : nat) (e : exn) : list exn :=
e :: match depth, base e with
     | S d, Some b => ancestors d b
     | _, _ => []
     end.

(** The method resolution order; no chain above is longer than five. *)
Definition mro (e : exn) : list exn := ancestors 5 e.

Definition issubclass (e c : exn) : bool := existsb (exn_eqb c) (mro e).

(** [except (c1, c2, ...)] matches an exception of any listed class or
  of a class derived from one. *)
Definition handled (classes : list exn) (e : exn) : bool :=
existsb (issubclass e) classes.

(** What evaluating a call yields: a value or a raised exception. *)
Inductive outcome (A : Type) : Type :=
| Return (a : A)
| Raise (e : exn).
Arguments Return {A} a.
Arguments Raise {A} e.

Definition raised {A} (o : outcome A) : option exn :=
match o with Return _ => None | Raise e => Some e end.

(** [try: body / except classes: handler e]. *)
Definition try_except {A} (body : outcome A) (classes : list exn)
  (handler : exn -> outcome A) : outcome A :=
match body with
| Return a => Return a
| Raise e => if handled classes e then handler e else Raise e
end.

(** Dynamically typed values.  [VFn c] is a callable object; what calling
  it does is given by the environment that runs the code. *)
Inductive value : Set :=
| VNone
| VStr (s : string)
| VInt (z : Z)
| VBool (b : bool)
| VFn (c : nat).

Definition value_eq_dec (a b : value) : {a = b} + {a <> b}.
Proof.
decide equality; first
  [ apply string_dec | apply Z.eq_dec | apply Bool.bool_dec
  | apply Nat.eq_dec ].
Defined.

Definition value_eqb (a b : value) : bool :=
if value_eq_dec a b then true else false.

(** Python truthiness ([if x:]). *)
Definition truthy (v : value) : bool :=
match v with
| VNone => false
| VStr s => negb (String.eqb s "")
| VInt z => negb (Z.eqb z 0)
| VBool b => b
| VFn _ => true
end.

(** The builtin [callable(x)]. *)
Definition callable (v : value) : bool :=
match v with VFn _ => true | _ => false end.

Definition of_opt_str (o : option string) : value :=
match o with Some s => VStr s | None => VNone end.

End Py.

Import Py.

(* ------------------------------------------------------------------ *)
(** * The model classes                                                *)
(* ------------------------------------------------------------------ *)

(** [class Task(models.Model)]. *)
Module Task.

Inductive STATUS_CHOICES : Set := pending | running | success | failed.

Definition status_value (s : STATUS_CHOICES) : string :=
  match s with
  | pending => "pending"
  | running => "running"
  | success => "success"
  | failed => "failed"
  end.

Definition status_eqb (a b : STATUS_CHOICES) : bool :=
  String.eqb (status_value a) (status_value b).

(** Timestamps are seconds since the epoch. *)
Record t : Set := Build {
  id : string;
  name : string;
  func : string;
  hook : value;
  args : value;
  kwargs : value;
  result : value;
  group : option string;
  cluster_type : option string;
  created_time : Z;
  start_time : Z;
  duration : Z;
  status : STATUS_CHOICES;
  attempt_count : Z
}.

(** Keyword resolution of [filter(<kw>=...)], [values_list(<kw>)]: the
    declared fields, and [pk] for the primary key.  A keyword that names
    no field does not resolve. *)
Definition field (kw : string) : option (t -> value) :=
  if String.eqb kw "id" then Some (fun r => VStr (id r))
  else if String.eqb kw "pk" then Some (fun r => VStr (id r))
  else if String.eqb kw "name" then Some (fun r => VStr (name r))
  else if String.eqb kw "func" then Some (fun r => VStr (func r))
  else if String.eqb kw "hook" then Some hook
  else if String.eqb kw "args" then Some args
  else if String.eqb kw "kwargs" then Some kwargs
  else if String.eqb kw "result" then Some result
  else if String.eqb kw "group" then Some (fun r => of_opt_str (group r))
  else if String.eqb kw "cluster_type" then
    Some (fun r => of_opt_str (cluster_type r))
  else if String.eqb kw "created_time" then
    Some (fun r => VInt (created_time r))
  else if String.eqb kw "start_time" then
    Some (fun r => VInt (start_time r))
  else if String.eqb kw "duration" then Some (fun r => VInt (duration r))
  else if String.eqb kw "status" then
    Some (fun r => VStr (status_value (status r)))
  else if String.eqb kw "attempt_count" then
    Some (fun r => VInt (attempt_count r))
  else None.

(** [class Meta: ordering = ["-stopped"]]: the default ordering of every
    Task query set that is read. *)
Definition ordering : list string := ["-stopped"].

Definition set_group (g : option string) (r : t) : t :=
  Build (id r) (name r) (func r) (hook r) (args r) (kwargs r) (result r)
        g (cluster_type r) (created_time r) (start_time r) (duration r)
        (status r) (attempt_count r).

(** Assignment by keyword, as [update(<kw>=v)] does; only the nullable
    text column [group] is assigned by the code. *)
Definition assign (kw : string) (v : value) : option (t -> t) :=
  if String.eqb kw "group" then
    match v with
    | VNone => Some (set_group None)
    | VStr s => Some (set_group (Some s))
    | _ => None
    end
  else None.

End Task.

(** [class Cluster(models.Model)]. *)
Module Cluster.
Record t : Set := Build {
  id : string;
  start_time : Z;
  heartbeat_time : Z;
  hostname : string;
  pid : Z;
  cluster_type : option string
}.
End Cluster.

(** The [on_delete] handlers the models use. *)
Inductive on_delete : Set := CASCADE | SET_NULL.

(** [class Worker(models.Model)]: the two foreign keys hold the primary
    key of the row they reference. *)
Module Worker.
Record t : Set := Build {
  id : string;
  cluster : string;
  pid : Z;
  start_time : Z;
  task : option string
}.

Definition cluster_on_delete : on_delete := CASCADE.
Definition task_on_delete : on_delete := SET_NULL.

Definition clear_task (w : t) : t :=
  Build (id w) (cluster w) (pid w) (start_time w) None.

Definition refers_task (ids : list string) (w : t) : bool :=
  match task w with
  | Some k => existsb (String.eqb k) ids
  | None => false
  end.

Definition refers_cluster (ids : list string) (w : t) : bool :=
  existsb (String.eqb (cluster w)) ids.
End Worker.

(* ------------------------------------------------------------------ *)
(** * Field validation, [validate_cron] and [class Schedule]           *)
(* ------------------------------------------------------------------ *)

(** [django_q.conf.croniter]: the croniter class when the package is
    installed, [None] otherwise.  Only [croniter.expand] is used, and only
    for whether it raises. *)
Record Croniter : Type := { expand : value -> outcome unit }.

(** [validate_cron(value)]. *)
Definition validate_cron (croniter : option Croniter) (value : value)
  : outcome unit :=
  match croniter with
  | None => Raise ImportError
  | Some c =>
      try_except (expand c value) [ValueError] (fun _ => Raise ValidationError)
  end.

(** Django's model fields, as far as [full_clean] looks at them. *)
Module Field.

Inductive kind : Set :=
  | AutoField
  | CharField (max_length : nat)
  | TextField
  | IntegerField
  | PositiveSmallIntegerField
  | DateTimeField.

Definition validator : Type := value -> outcome unit.

Record t : Type := Build {
  name : string;
  type : kind;
  null : bool;
  blank : bool;
  editable : bool;
  choices : option (list (string * string));
  validators : list validator
}.

(** [Field.empty_values]. *)
Definition empty (v : value) : bool :=
  match v with
  | VNone => true
  | VStr s => String.eqb s ""
  | _ => false
  end.

Definition MaxLengthValidator (limit : nat) : validator :=
  fun v =>
    match v with
    | VStr s => if Nat.ltb limit (String.length s)
                then Raise ValidationError else Return tt
    | _ => Return tt
    end.

Definition MinValueValidator (limit : Z) : validator :=
  fun v =>
    match v with
    | VInt z => if Z.ltb z limit then Raise ValidationError else Return tt
    | _ => Return tt
    end.

Definition MaxValueValidator (limit : Z) : validator :=
  fun v =>
    match v with
    | VInt z => if Z.ltb limit z then Raise ValidationError else Return tt
    | _ => Return tt
    end.

Section Backend.
(** The database backend's [integer_field_range]. *)
Variable integer_field_range : kind -> option Z * option Z.

Definition range_validators (k : kind) : list validator :=
  let (lo, hi) := integer_field_range k in
  (match lo with Some z => [MinValueValidator z] | None => [] end)
  ++ (match hi with Some z => [MaxValueValidator z] | None => [] end).

(** The validators a field runs: those of its type, then its own. *)
Definition all_validators (f : t) : list validator :=
  match type f with
  | CharField n => validators f ++ [MaxLengthValidator n]
  | IntegerField | PositiveSmallIntegerField | AutoField =>
      range_validators (type f) ++ validators f
  | TextField | DateTimeField => validators f
  end.

(** [Field.validate]. *)
Definition validate (f : t) (v : value) : outcome unit :=
  if negb (editable f) then Return tt
  else
    let bad_choice :=
      match choices f, v with
      | Some cs, VStr s =>
          negb (empty v) && negb (existsb (fun c => String.eqb s (fst c)) cs)
      | Some _, _ => negb (empty v)
      | None, _ => false
      end in
    if bad_choice then Raise ValidationError
    else if value_eqb v VNone && negb (null f) then Raise ValidationError
    else if negb (blank f) && empty v then Raise ValidationError
    else Return tt.

(** [Field.run_validators]: every validator runs; ValidationErrors
    are gathered and raised together, anything else propagates. *)
Fixpoint run_all (vs : list validator) (v : value) (errors : bool)
  : outcome unit :=
  match vs with
  | [] => if errors then Raise ValidationError else Return tt
  | check :: rest =>
      match check v with
      | Return _ => run_all rest v errors
      | Raise e =>
          if issubclass e ValidationError then run_all rest v true
          else Raise e
      end
  end.

Definition run_validators (f : t) (v : value) : outcome unit :=
  if empty v then Return tt else run_all (all_validators f) v false.

(** [Field.clean]; [to_python] leaves the values of a typed instance as
    they are. *)
Definition clean (f : t) (v : value) : outcome unit :=
  match validate f v with
  | Return _ => run_validators f v
  | Raise e => Raise e
  end.

(** [Model.clean_fields] over the fields of a model, each paired with
    the instance's raw value. *)
Fixpoint clean_fields (fs : list (t * value)) (errors : bool)
  : outcome unit :=
  match fs with
  | [] => if errors then Raise ValidationError else Return tt
  | (f, raw) :: rest =>
      if blank f && empty raw then clean_fields rest errors
      else
        match clean f raw with
        | Return _ => clean_fields rest errors
        | Raise e =>
            if issubclass e ValidationError then clean_fields rest true
            else Raise e
        end
  end.
End Backend.

End Field.

(** [class Schedule(models.Model)]. *)
Module Schedule.

Definition ONCE : string := "O".
Definition MINUTES : string := "I".
Definition HOURLY : string := "H".
Definition DAILY : string := "D".
Definition WEEKLY : string := "W".
Definition MONTHLY : string := "M".
Definition QUARTERLY : string := "Q".
Definition YEARLY : string := "Y".
Definition CRON : string := "C".

Definition TYPE : list (string * string) :=
  [ (ONCE, "Once"); (MINUTES, "Minutes"); (HOURLY, "Hourly");
    (DAILY, "Daily"); (WEEKLY, "Weekly"); (MONTHLY, "Monthly");
    (QUARTERLY, "Quarterly"); (YEARLY, "Yearly"); (CRON, "Cron") ].

Record t : Set := Build {
  id : option Z;
  name : option string;
  func : string;
  hook : option string;
  args : option string;
  kwargs : option string;
  schedule_type : string;
  minutes : option Z;
  repeats : Z;
  next_run : option Z;
  cron : option string;
  task : option string
}.

Definition of_opt_int (o : option Z) : value :=
  match o with Some z => VInt z | None => VNone end.

Section Validation.
Variable croniter : option Croniter.
Variable integer_field_range : Field.kind -> option Z * option Z.

(** The declared fields with the instance's values, in declaration
    order ([id] is the implicit primary key). *)
Definition fields (s : t) : list (Field.t * value) :=
  [ (Field.Build "id" Field.AutoField false true true None [],
     of_opt_int (id s));
    (Field.Build "name" (Field.CharField 100) true true true None [],
     of_opt_str (name s));
    (Field.Build "func" (Field.CharField 256) false false true None [],
     VStr (func s));
    (Field.Build "hook" (Field.CharField 256) true true true None [],
     of_opt_str (hook s));
    (Field.Build "args" Field.TextField true true true None [],
     of_opt_str (args s));
    (Field.Build "kwargs" Field.TextField true true true None [],
     of_opt_str (kwargs s));
    (Field.Build "schedule_type" (Field.CharField 1) false false true
       (Some TYPE) [],
     VStr (schedule_type s));
    (Field.Build "minutes" Field.PositiveSmallIntegerField true true true
       None [],
     of_opt_int (minutes s));
    (Field.Build "repeats" Field.IntegerField false false true None [],
     VInt (repeats s));
    (Field.Build "next_run" Field.DateTimeField true false true None [],
     of_opt_int (next_run s));
    (Field.Build "cron" (Field.CharField 100) true true true None
       [validate_cron croniter],
     of_opt_str (cron s));
    (Field.Build "task" (Field.CharField 100) true false false None [],
     of_opt_str (task s)) ].

(** [Model.full_clean], for what it checks of the instance alone: the
    class defines no [clean] and no constraints, so that is
    [clean_fields].  Its check of the primary key against the stored rows
    ([validate_unique]) needs the store and is not part of this
    function. *)
Definition full_clean (s : t) : outcome unit :=
  Field.clean_fields integer_field_range (fields s) false.
End Validation.

End Schedule.

(* ------------------------------------------------------------------ *)
(** * The database and the query sets over it                          *)
(* ------------------------------------------------------------------ *)

Record DB : Set := mkDB {
  tasks : list Task.t;
  schedules : list Schedule.t;
  clusters : list Cluster.t;
  workers : list Worker.t
}.

(** Code that reads and writes the database and may raise. *)
Definition M (A : Type) : Type := DB -> outcome A * DB.

Definition ret {A} (a : A) : M A := fun db => (Return a, db).
Definition throw {A} (e : exn) : M A := fun db => (Raise e, db).
Definition lift {A} (o : outcome A) : M A := fun db => (o, db).
Definition bind {A B} (m : M A) (k : A -> M B) : M B :=
  fun db =>
    match m db with
    | (Return a, db') => k a db'
    | (Raise e, db') => (Raise e, db')
    end.

Declare Scope orm_scope.
Delimit Scope orm_scope with orm.
Notation "x <- m ;; k" := (bind m (fun x => k))
  (at level 61, m at next level, right associativity) : orm_scope.
Local Open Scope orm_scope.

(** What a foreign key's [on_delete] does to the rows that reference a
    deleted row. *)
Definition collect {R : Type} (h : on_delete) (refers : R -> bool)
    (clear : R -> R) (rows : list R) : list R :=
  match h with
  | CASCADE => filter (fun r => negb (refers r)) rows
  | SET_NULL => map (fun r => if refers r then clear r else r) rows
  end.

(** Deleting Task rows by primary key: the collector first handles
    [Worker.task]. *)
Definition delete_tasks (ids : list string) (db : DB) : DB :=
  mkDB (filter (fun r => negb (existsb (String.eqb (Task.id r)) ids))
          (tasks db))
       (schedules db)
       (clusters db)
       (collect Worker.task_on_delete (Worker.refers_task ids)
          Worker.clear_task (workers db)).

(** Deleting Cluster rows by primary key: the collector first handles
    [Worker.cluster]. *)
Definition delete_clusters (ids : list string) (db : DB) : DB :=
  mkDB (tasks db)
       (schedules db)
       (filter (fun c => negb (existsb (String.eqb (Cluster.id c)) ids))
          (clusters db))
       (collect Worker.cluster_on_delete (Worker.refers_cluster ids)
          (fun w => w) (workers db)).

(** [instance.delete()]. *)
Definition Task_delete (t : Task.t) : M unit :=
  fun db => (Return tt, delete_tasks [Task.id t] db).

Definition Cluster_delete (c : Cluster.t) : M unit :=
  fun db => (Return tt, delete_clusters [Cluster.id c] db).

(** A query set over Task is lazy: it is the conjunction of the lookups
    applied so far, evaluated against the table when rows are needed. *)
Module QuerySet.

Record lookup : Type := Lookup {
  lk_field : string;
  lk_get : Task.t -> value;
  lk_value : value
}.

Definition t : Type := list lookup.

Definition all : t := [].

Definition matches (r : Task.t) (l : lookup) : bool :=
  value_eqb (lk_get l r) (lk_value l).

Definition selects (qs : t) (r : Task.t) : bool := forallb (matches r) qs.

Definition rows (qs : t) (db : DB) : list Task.t :=
  List.filter (selects qs) (tasks db).

(** [qs.filter(kw=v)]: the keyword is resolved when the filter is
    applied; an unknown keyword raises FieldError. *)
Definition filter (qs : t) (kw : string) (v : value) : outcome t :=
  match Task.field kw with
  | Some g => Return (qs ++ [Lookup kw g v])
  | None => Raise FieldError
  end.

Definition exists_ (qs : t) : M bool :=
  fun db => (Return (negb (Nat.eqb (length (rows qs db)) 0)), db).

Definition count (qs : t) : M nat :=
  fun db => (Return (length (rows qs db)), db).

(** [qs.get(kw=v)]. *)
Definition get (qs : t) (kw : string) (v : value) : M Task.t :=
  q <- lift (filter qs kw v) ;;
  fun db =>
    match rows q db with
    | [] => (Raise ObjectDoesNotExist, db)
    | [r] => (Return r, db)
    | _ :: _ :: _ => (Raise MultipleObjectsReturned, db)
    end.

(** Reading the rows of a query set (iterating it, or taking its truth
    value) orders them by the model's [Meta.ordering], whose entries are
    resolved like filter keywords, a leading "-" asking for descending
    order.  [exists], [count], [get] and [delete] above drop the ordering
    and are not affected. *)
Definition order_key (entry : string) : option (bool * (Task.t -> value)) :=
  match entry with
  | String c name =>
      if Ascii.eqb c "-"%char
      then option_map (pair true) (Task.field name)
      else option_map (pair false) (Task.field entry)
  | EmptyString => None
  end.

Fixpoint resolve_ordering (entries : list string)
  : outcome (list (bool * (Task.t -> value))) :=
  match entries with
  | [] => Return []
  | entry :: rest =>
      match order_key entry, resolve_ordering rest with
      | Some k, Return ks => Return (k :: ks)
      | None, _ => Raise FieldError
      | _, Raise e => Raise e
      end
  end.

(** The order of two column values: null first, then by type and
    content. *)
Definition value_compare (a b : value) : comparison :=
  match a, b with
  | VNone, VNone => Eq
  | VNone, _ => Lt
  | _, VNone => Gt
  | VBool x, VBool y => Bool.compare x y
  | VBool _, _ => Lt
  | _, VBool _ => Gt
  | VInt x, VInt y => Z.compare x y
  | VInt _, _ => Lt
  | _, VInt _ => Gt
  | VStr x, VStr y => String.compare x y
  | VStr _, _ => Lt
  | _, VStr _ => Gt
  | VFn x, VFn y => Nat.compare x y
  end.

Fixpoint row_compare (keys : list (bool * (Task.t -> value)))
    (a b : Task.t) : comparison :=
  match keys with
  | [] => Eq
  | (descending, get) :: rest =>
      match (if descending then value_compare (get b) (get a)
             else value_compare (get a) (get b)) with
      | Eq => row_compare rest a b
      | c => c
      end
  end.

Fixpoint insert_row (keys : list (bool * (Task.t -> value)))
    (r : Task.t) (sorted : list Task.t) : list Task.t :=
  match sorted with
  | [] => [r]
  | x :: rest =>
      match row_compare keys r x with
      | Gt => x :: insert_row keys r rest
      | _ => r :: sorted
      end
  end.

Definition sort_rows (keys : list (bool * (Task.t -> value)))
    (l : list Task.t) : list Task.t :=
  fold_right (insert_row keys) [] l.

(** Fetching the rows of a query set. *)
Definition fetch (qs : t) : M (list Task.t) :=
  fun db =>
    match resolve_ordering Task.ordering with
    | Return keys => (Return (sort_rows keys (rows qs db)), db)
    | Raise e => (Raise e, db)
    end.

(** [qs.values_list(kw, flat=True)] is again a lazy query set: the query
    and the column to read; the keyword is resolved at once. *)
Record values : Type := Values {
  vl_query : t;
  vl_field : string;
  vl_get : Task.t -> value
}.

Definition values_list (qs : t) (kw : string) : outcome values :=
  match Task.field kw with
  | Some g => Return (Values qs kw g)
  | None => Raise FieldError
  end.

(** Iterating over a values list fetches the rows. *)
Definition fetch_values (v : values) : M (list value) :=
  rs <- fetch (vl_query v) ;;
  ret (map (vl_get v) rs).

(** [qs.delete()]. *)
Definition delete (qs : t) : M nat :=
  fun db =>
    let doomed := rows qs db in
    (Return (length doomed), delete_tasks (map Task.id doomed) db).

(** [qs.update(kw=v)]; a keyword that cannot be assigned raises
    FieldDoesNotExist. *)
Definition update (qs : t) (kw : string) (v : value) : M nat :=
  match Task.assign kw v with
  | Some set =>
      fun db =>
        (Return (length (rows qs db)),
         mkDB (map (fun r => if selects qs r then set r else r) (tasks db))
              (schedules db) (clusters db) (workers db))
  | None => throw FieldDoesNotExist
  end.

End QuerySet.

(* ------------------------------------------------------------------ *)
(** * [class TaskManager(models.Manager)]                              *)
(* ------------------------------------------------------------------ *)

Module TaskManager.

(** [Task.objects] is a plain [TaskManager]: its query set is the whole
    table. *)
Definition get_queryset : QuerySet.t := QuerySet.all.

(** The fixed length of a task id tested by [get_task]; [len] counts the
    characters of the string, as [String.length] does. *)
Definition ID_LENGTH : nat := 32.

(** [get_task]: [a and b] evaluates [b] only when [a] holds; falling off
    the end of the function returns [None]. *)
Definition get_task (task_id : string) : M (option Task.t) :=
  by_id <- (if Nat.eqb (String.length task_id) ID_LENGTH
            then q <- lift (QuerySet.filter get_queryset "id" (VStr task_id)) ;;
                 QuerySet.exists_ q
            else ret false) ;;
  if (by_id : bool) then
    r <- QuerySet.get get_queryset "id" (VStr task_id) ;;
    ret (Some r)
  else
    by_name <- (q <- lift (QuerySet.filter get_queryset "name"
                             (VStr task_id)) ;;
                QuerySet.exists_ q) ;;
    if (by_name : bool) then
      r <- QuerySet.get get_queryset "name" (VStr task_id) ;;
      ret (Some r)
    else ret None.

(** [get_result]: attribute access on [None] raises AttributeError. *)
Definition get_result (task_id : string) : M value :=
  r <- get_task task_id ;;
  match r with
  | Some task => ret (Task.result task)
  | None => throw AttributeError
  end.

(** [get_group_tasks(group_id, failures=True)]. *)
Definition get_group_tasks_failures_default : bool := true.

Definition get_group_tasks (group_id : string) (failures : bool)
  : M QuerySet.t :=
  qs <- lift (QuerySet.filter get_queryset "group" (VStr group_id)) ;;
  if failures then lift (QuerySet.filter qs "success" (VBool false))
  else ret qs.

(** [get_group_count(group_id, failures=False)]. *)
Definition get_group_count (group_id : string) (failures : bool) : M nat :=
  qs <- get_group_tasks group_id failures ;;
  QuerySet.count qs.

(** [delete_group(group_id, tasks=False)]: the group query is built with
    [get_group_tasks]'s own default for [failures]. *)
Definition delete_group (group_id : string) (tasks : bool) : M unit :=
  group_qs <- get_group_tasks group_id get_group_tasks_failures_default ;;
  if tasks then
    _ <- QuerySet.delete group_qs ;; ret tt
  else
    _ <- QuerySet.update group_qs "group" VNone ;; ret tt.

(** What [decode_results] hands back: the decoded list, or the values
    list it was given, still unread. *)
Inductive results : Type :=
  | Decoded (vs : list value)
  | Unread (values : QuerySet.values).

Section Results.
(** [get_version().split(".")] of the installed Django, and
    picklefield's [dbsafe_decode]. *)
Variable django_version : list string.
Variable dbsafe_decode : value -> value.

(** [decode_results]: indexing past the end raises IndexError; the list
    comprehension of the 1.7 branch iterates over the values list. *)
Definition decode_results (values : QuerySet.values) : M results :=
  match nth_error django_version 1 with
  | None => throw IndexError
  | Some minor =>
      if String.eqb minor "7" then
        vs <- QuerySet.fetch_values values ;;
        ret (Decoded (map dbsafe_decode vs))
      else ret (Unread values)
  end.

(** [get_group_results(group_id, failures=False)]. *)
Definition get_group_results (group_id : string) (failures : bool)
  : M results :=
  qs <- get_group_tasks group_id failures ;;
  vs <- lift (QuerySet.values_list qs "result") ;;
  decode_results vs.
End Results.

End TaskManager.

(* ------------------------------------------------------------------ *)
(** * Saving rows                                                      *)
(* ------------------------------------------------------------------ *)

(** [Model.save] writes the row under its primary key: an existing row
    with that key is replaced, otherwise the row is added.  It runs no
    validator.  Rows are kept as the instance holds them; a text column
    given something that is not text (a hook that is a callable object)
    stores its text instead, so statements that read a row back are made
    for instances whose hook is a reference or null. *)
Fixpoint upsert_task (r : Task.t) (rows : list Task.t) : list Task.t :=
  match rows with
  | [] => [r]
  | x :: rest =>
      if String.eqb (Task.id x) (Task.id r) then r :: rest
      else x :: upsert_task r rest
  end.

Definition write_task (r : Task.t) (db : DB) : DB :=
  mkDB (upsert_task r (tasks db)) (schedules db) (clusters db) (workers db).

Definition next_schedule_id (rows : list Schedule.t) : Z :=
  1 + fold_right (fun s acc =>
                    match Schedule.id s with
                    | Some k => Z.max k acc
                    | None => acc
                    end) 0%Z rows.

Definition with_schedule_id (k : Z) (s : Schedule.t) : Schedule.t :=
  Schedule.Build (Some k) (Schedule.name s) (Schedule.func s)
    (Schedule.hook s) (Schedule.args s) (Schedule.kwargs s)
    (Schedule.schedule_type s) (Schedule.minutes s) (Schedule.repeats s)
    (Schedule.next_run s) (Schedule.cron s) (Schedule.task s).

Definition same_schedule_id (k : Z) (s : Schedule.t) : bool :=
  match Schedule.id s with Some j => Z.eqb j k | None => false end.

Fixpoint upsert_schedule (k : Z) (s : Schedule.t) (rows : list Schedule.t)
  : list Schedule.t :=
  match rows with
  | [] => [s]
  | x :: rest =>
      if same_schedule_id k x then s :: rest
      else x :: upsert_schedule k s rest
  end.

(** [Schedule.save()]: a schedule without id gets the next one. *)
Definition Schedule_save (s : Schedule.t) : M Schedule.t :=
  fun db =>
    let k := match Schedule.id s with
             | Some k => k
             | None => next_schedule_id (schedules db)
             end in
    let s' := with_schedule_id k s in
    (Return s',
     mkDB (tasks db) (upsert_schedule k s' (schedules db)) (clusters db)
          (workers db)).

(** A validated write, as a model form or [full_clean(); save()] does
    it: the row is stored only when [full_clean] raises nothing. *)
Definition Schedule_validated_save (croniter : option Croniter)
    (integer_field_range : Field.kind -> option Z * option Z)
    (s : Schedule.t) : M Schedule.t :=
  _ <- lift (Schedule.full_clean croniter integer_field_range s) ;;
  Schedule_save s.

(* ------------------------------------------------------------------ *)
(** * [django_q/signals.py]                                            *)
(* ------------------------------------------------------------------ *)

Module Signals.

(** The two messages [call_hook] gives to [logger.error]. *)
Inductive log_record : Set :=
  | malformed_return_hook (hook : value) (name : string)
  | return_hook_failed (hook : value) (name : string) (because : exn).

(** What the signal handler can touch besides the database: the logger
    and the callables it calls ([called] lists the calls made, latest
    first). *)
Record env : Set := mkEnv {
  log : list log_record;
  called : list (nat * Task.t)
}.

Definition logger_error (m : log_record) (w : env) : env :=
  mkEnv (m :: log w) (called w).

Section Hooks.
(** [django_q.tasks.import_function], and what calling the callable
    object [c] on a Task does. *)
Variable import_function : value -> outcome value.
Variable run : nat -> Task.t -> outcome unit.

(** [f(instance)]: calling something that is not callable raises
    TypeError. *)
Definition call (f : value) (instance : Task.t) (w : env)
  : outcome unit * env :=
  match f with
  | VFn c => (run c instance, mkEnv (log w) ((c, instance) :: called w))
  | _ => (Raise TypeError, w)
  end.

(** The first [try] of [call_hook]: [Return None] stands for the
    [return] in its [except] branch. *)
Definition resolve (instance : Task.t) (w : env)
  : outcome (option value) * env :=
  let f := Task.hook instance in
  if negb (callable f) then
    match import_function f with
    | Return g => (Return (Some g), w)
    | Raise e =>
        if handled [ValueError; ImportError; AttributeError] e then
          (Return None,
           logger_error
             (malformed_return_hook (Task.hook instance)
                (Task.name instance)) w)
        else (Raise e, w)
    end
  else (Return (Some f), w).

(** [call_hook(sender, instance, **kwargs)]. *)
Definition call_hook (instance : Task.t) (w : env) : outcome unit * env :=
  if truthy (Task.hook instance) then
    match resolve instance w with
    | (Raise e, w1) => (Raise e, w1)
    | (Return None, w1) => (Return tt, w1)
    | (Return (Some f), w1) =>
        match call f instance w1 with
        | (Return _, w2) => (Return tt, w2)
        | (Raise e, w2) =>
            if handled [Exception] e then
              (Return tt,
               logger_error
                 (return_hook_failed (Task.hook instance)
                    (Task.name instance) e) w2)
            else (Raise e, w2)
        end
    end
  else (Return tt, w).

(** [Task.save()]: the row is written, then [post_save] is sent to its
    receiver [call_hook]; [Signal.send] lets a receiver's exception
    through to the caller of [save].  What a callable does to the store is
    its own code, which [run] does not show: [call_hook] itself writes
    nothing, and statements about the store after [save] are made only
    where no callable is called. *)
Definition Task_save (instance : Task.t) (db : DB) (w : env)
  : outcome unit * DB * env :=
  let db' := write_task instance db in
  let (r, w') := call_hook instance w in
  (r, db', w').
End Hooks.

End Signals.

(* ------------------------------------------------------------------ *)
(** * Vocabulary of the statements, and sample data                    *)
(* ------------------------------------------------------------------ *)

(** The rows of the Task table with a given id, name or group. *)
Definition with_id (s : string) (db : DB) : list Task.t :=
  filter (fun r => String.eqb (Task.id r) s) (tasks db).

Definition with_name (s : string) (db : DB) : list Task.t :=
  filter (fun r => String.eqb (Task.name r) s) (tasks db).

Definition in_group (g : string) (r : Task.t) : bool :=
  match Task.group r with Some h => String.eqb h g | None => false end.

Definition members (g : string) (db : DB) : list Task.t :=
  filter (in_group g) (tasks db).

(** One get, given the rows its lookup selects. *)
Definition pick (found : list Task.t) (db : DB) : outcome (option Task.t) * DB :=
  match found with
  | [] => (Raise ObjectDoesNotExist, db)
  | [r] => (Return (Some r), db)
  | _ :: _ :: _ => (Raise MultipleObjectsReturned, db)
  end.

(** [id] is the primary key of Task. *)
Definition primary_key_ok (db : DB) : Prop := NoDup (map Task.id (tasks db)).

Module Sample.

Definition task (id name : string) (hook : value) (group : option string)
    (status : Task.STATUS_CHOICES) : Task.t :=
  Task.Build id name "math.floor" hook VNone VNone (VInt 1) group None
    0%Z 0%Z 0%Z status 0%Z.

Definition id1 : string := "0123456789abcdef0123456789abcdef".
Definition id2 : string := "fedcba9876543210fedcba9876543210".
Definition id3 : string := "00000000000000000000000000000000".

Definition t1 : Task.t := task id1 "alpha" VNone (Some "g1") Task.success.
Definition t2 : Task.t := task id2 "beta" VNone (Some "g1") Task.failed.
Definition t3 : Task.t := task id3 "beta" VNone None Task.pending.

Definition db : DB := mkDB [t1; t2; t3] [] [] [].

End Sample.

Module SampleHooks.

(** A resolver that knows two references, and three callables: one
    returns, one raises RuntimeError, one exits the interpreter. *)
Definition import_function (f : value) : outcome value :=
  match f with
  | VStr s =>
      if String.eqb s "hooks.done" then Return (VFn 0)
      else if String.eqb s "hooks.broken" then Return (VFn 1)
      else if String.eqb s "nodots" then Raise ValueError
      else Raise ModuleNotFoundError
  | _ => Raise AttributeError
  end.

Definition run (c : nat) (_ : Task.t) : outcome unit :=
  match c with
  | 0 => Return tt
  | 1 => Raise RuntimeError
  | _ => Raise SystemExit
  end.

Definition quiet : Signals.env := Signals.mkEnv [] [].

Definition finished (hook : value) : Task.t :=
  Sample.task Sample.id1 "alpha" hook None Task.success.

Definition unfinished (status : Task.STATUS_CHOICES) : Task.t :=
  Sample.task Sample.id1 "alpha" (VFn 0) None status.

End SampleHooks.

Module SampleSchedule.

(** A croniter stand-in that accepts one expression. *)
Definition croniter : Croniter :=
  {| expand := fun v =>
       match v with
       | VStr s => if String.eqb s "0 0 * * *" then Return tt
                   else Raise CroniterBadCronError
       | _ => Raise AttributeError
       end |}.

Definition integer_field_range (k : Field.kind) : option Z * option Z :=
  match k with
  | Field.PositiveSmallIntegerField => (Some 0%Z, Some 32767%Z)
  | _ => (Some (-2147483648)%Z, Some 2147483647%Z)
  end.

Definition make (schedule_type : string) (minutes : option Z)
    (cron : option string) : Schedule.t :=
  Schedule.Build None None "math.floor" None None None schedule_type
    minutes (-1)%Z (Some 0%Z) cron None.

Definition empty_db : DB := mkDB [] [] [] [].

End SampleSchedule.

Module SampleWorkers.

Definition c1 : Cluster.t := Cluster.Build "cluster-1" 0 0 "host" 100 None.
Definition c2 : Cluster.t := Cluster.Build "cluster-2" 0 0 "host" 200 None.
Definition w1 : Worker.t :=
  Worker.Build "w1" "cluster-1" 101 0 (Some Sample.id1).
Definition w2 : Worker.t :=
  Worker.Build "w2" "cluster-1" 102 0 (Some Sample.id2).
Definition w3 : Worker.t := Worker.Build "w3" "cluster-2" 201 0 None.

Definition db : DB :=
  mkDB [Sample.t1; Sample.t2; Sample.t3] [] [c1; c2] [w1; w2; w3].

End SampleWorkers.

(** A field passes [clean_fields]: it is skipped as blank, or cleans. *)
Definition field_ok (range : Field.kind -> option Z * option Z)
    (p : Field.t * value) : Prop :=
  Field.blank (fst p) && Field.empty (snd p) = true
  \/ Field.clean range (fst p) (snd p) = Return tt.

(** Something that raises nothing but ValidationError. *)
Definition only_validation_errors {A} (o : outcome A) : Prop :=
  forall e, o = Raise e -> e = ValidationError.

(** Replacing the three fields of a Schedule that the presence rule is
    about. *)
Definition with_type_minutes_cron (ty : string) (m : option Z)
    (c : option string) (s : Schedule.t) : Schedule.t :=
  Schedule.Build (Schedule.id s) (Schedule.name s) (Schedule.func s)
    (Schedule.hook s) (Schedule.args s) (Schedule.kwargs s) ty m
    (Schedule.repeats s) (Schedule.next_run s) c (Schedule.task s).

(** The reading of the presence rule on stored schedules: whatever a
    validated write stores has [minutes] exactly for the Minutes type and
    [cron] exactly for the Cron type. *)
Definition presence_rule (s : Schedule.t) : Prop :=
  (Schedule.minutes s <> None <-> Schedule.schedule_type s = Schedule.MINUTES)
  /\ (Schedule.cron s <> None <-> Schedule.schedule_type s = Schedule.CRON).

Definition presence_enforced_at_write : Prop :=
  forall croniter range s db s' db',
    Schedule_validated_save croniter range s db = (Return s', db') ->
    presence_rule s'.

(** The reading of "validate_cron raises ValidationError on every
    malformed expression and nothing on every well-formed one", for a
    given notion [well_formed] of well-formedness. *)
Definition validate_cron_decides (well_formed : value -> bool) : Prop :=
  forall croniter v,
    (well_formed v = false -> validate_cron croniter v = Raise ValidationError)
    /\ (well_formed v = true -> validate_cron croniter v = Return tt).

(** The reading of "no exception escapes the hook dispatch": whatever the
    resolver and the callables do, [save] returns normally. *)
Definition no_exception_escapes_save : Prop :=
  forall import_function run instance db w,
    fst (fst (Signals.Task_save import_function run instance db w))
    = Return tt.

(** A hook reference resolves to the callable [c]. *)
Definition resolves_to (import_function : value -> outcome value)
    (hook : value) (c : nat) : Prop :=
  hook = VFn c \/ (callable hook = false /\ import_function hook = Return (VFn c)).

(* ------------------------------------------------------------------ *)
(** * The rest of [models.py]: managers as a class, instance methods   *)
(* ------------------------------------------------------------------ *)

(** A manager is what [self.get_queryset()] gives; the methods of
    [TaskManager] are written once over it, and the proxy models' managers
    inherit them. *)
Module Managers.

Class Manager : Type := { get_queryset : outcome QuerySet.t }.

(** [models.Manager.get_queryset], which [TaskManager] inherits. *)
#[export] Instance Task_objects : Manager :=
  {| get_queryset := Return QuerySet.all |}.

(** [super().get_queryset().filter(kw=v)]. *)
Definition narrowed (parent : Manager) (kw : string) (v : value)
  : outcome QuerySet.t :=
  match @get_queryset parent with
  | Return qs => QuerySet.filter qs kw v
  | Raise e => Raise e
  end.

(** [SuccessManager.get_queryset]. *)
#[export] Instance Success_objects : Manager :=
  {| get_queryset := narrowed Task_objects "success" (VBool true) |}.

(** [FailureManager.get_queryset]. *)
#[export] Instance Failure_objects : Manager :=
  {| get_queryset := narrowed Task_objects "success" (VBool false) |}.

Section Methods.
Context (self : Manager).

(** [get_task]: every [self.get_queryset()] is a call of its own. *)
Definition get_task (task_id : string) : M (option Task.t) :=
  by_id <- (if Nat.eqb (String.length task_id) TaskManager.ID_LENGTH
            then qs <- lift get_queryset ;;
                 q <- lift (QuerySet.filter qs "id" (VStr task_id)) ;;
                 QuerySet.exists_ q
            else ret false) ;;
  if (by_id : bool) then
    qs <- lift get_queryset ;;
    r <- QuerySet.get qs "id" (VStr task_id) ;;
    ret (Some r)
  else
    by_name <- (qs <- lift get_queryset ;;
                q <- lift (QuerySet.filter qs "name" (VStr task_id)) ;;
                QuerySet.exists_ q) ;;
    if (by_name : bool) then
      qs <- lift get_queryset ;;
      r <- QuerySet.get qs "name" (VStr task_id) ;;
      ret (Some r)
    else ret None.

Definition get_result (task_id : string) : M value :=
  r <- get_task task_id ;;
  match r with
  | Some task => ret (Task.result task)
  | None => throw AttributeError
  end.

Definition get_group_tasks (group_id : string) (failures : bool)
  : M QuerySet.t :=
  base <- lift get_queryset ;;
  qs <- lift (QuerySet.filter base "group" (VStr group_id)) ;;
  if failures then lift (QuerySet.filter qs "success" (VBool false))
  else ret qs.

Definition get_group_count (group_id : string) (failures : bool) : M nat :=
  qs <- get_group_tasks group_id failures ;;
  QuerySet.count qs.

Definition get_group_results (django_version : list string)
    (dbsafe_decode : value -> value) (group_id : string) (failures : bool)
  : M TaskManager.results :=
  qs <- get_group_tasks group_id failures ;;
  vs <- lift (QuerySet.values_list qs "result") ;;
  TaskManager.decode_results django_version dbsafe_decode vs.

Definition delete_group (group_id : string) (tasks : bool) : M unit :=
  group_qs <- get_group_tasks group_id
                TaskManager.get_group_tasks_failures_default ;;
  if tasks then
    _ <- QuerySet.delete group_qs ;; ret tt
  else
    _ <- QuerySet.update group_qs "group" VNone ;; ret tt.

End Methods.

End Managers.

(** [self.objects] read through an instance: Django's manager descriptor
    raises AttributeError ("Manager isn't accessible via Task
    instances"). *)
Definition Task_instance_objects : outcome Managers.Manager :=
  Raise AttributeError.

(** [Task.group_result(failures=False)]: [self.objects] is evaluated
    before the call it is the receiver of. *)
Definition Task_group_result (django_version : list string)
    (dbsafe_decode : value -> value) (self : Task.t) (failures : bool)
  : M (option TaskManager.results) :=
  match Task.group self with
  | Some g =>
      if truthy (VStr g) then
        objects <- lift Task_instance_objects ;;
        vs <- Managers.get_group_results objects django_version
                dbsafe_decode g failures ;;
        ret (Some vs)
      else ret None
  | None => ret None
  end.

(** [Task.group_count(failures=False)]. *)
Definition Task_group_count (self : Task.t) (failures : bool)
  : M (option nat) :=
  match Task.group self with
  | Some g =>
      if truthy (VStr g) then
        objects <- lift Task_instance_objects ;;
        n <- Managers.get_group_count objects g failures ;;
        ret (Some n)
      else ret None
  | None => ret None
  end.

(** [Model.clean_fields] on a Schedule: every declared field is cleaned
    and the ValidationErrors are gathered; the store is not consulted. *)
Definition Schedule_clean_fields (croniter : option Croniter)
    (range : Field.kind -> option Z * option Z) (s : Schedule.t)
  : outcome unit :=
  Field.clean_fields range (Schedule.fields croniter s) false.

(** Reading a data attribute of a Task instance: the fields are its data
    attributes; a name that is none of them raises AttributeError.  (The
    code reads field names and [success] this way.) *)
Definition Task_getattr (r : Task.t) (name : string) : outcome value :=
  match Task.field name with
  | Some g => Return (g r)
  | None => Raise AttributeError
  end.

(** The truth value of a query set ([if qs:], [a and qs]): its rows are
    fetched, and it is true when there is one. *)
Definition QuerySet_bool (qs : QuerySet.t) : M bool :=
  rs <- QuerySet.fetch qs ;;
  ret (negb (Nat.eqb (length rs) 0)).

(** The test both [Schedule.success] and [Schedule.last_run] start with:
    [self.task and Task.objects.filter(id=self.task)]. *)
Definition Schedule_has_task (self : Schedule.t) : M bool :=
  if truthy (of_opt_str (Schedule.task self)) then
    q <- lift (QuerySet.filter TaskManager.get_queryset "id"
                 (of_opt_str (Schedule.task self))) ;;
    QuerySet_bool q
  else ret false.

(** [Schedule.success()]. *)
Definition Schedule_success (self : Schedule.t) : M (option value) :=
  found <- Schedule_has_task self ;;
  if (found : bool) then
    r <- QuerySet.get TaskManager.get_queryset "id"
           (of_opt_str (Schedule.task self)) ;;
    v <- lift (Task_getattr r "success") ;;
    ret (Some v)
  else ret None.

Section Admin.
(** [django.urls.reverse] with one positional argument, and
    [format_html]. *)
Variable reverse : string -> string -> outcome string.
Variable format_html : string -> string.

(** [Schedule.last_run()]. *)
Definition Schedule_last_run (self : Schedule.t) : M (option string) :=
  found <- Schedule_has_task self ;;
  if (found : bool) then
    task <- QuerySet.get TaskManager.get_queryset "id"
              (of_opt_str (Schedule.task self)) ;;
    ok <- lift (Task_getattr task "success") ;;
    url <- lift (if truthy ok
                 then reverse "admin:django_q_success_change" (Task.id task)
                 else reverse "admin:django_q_failure_change" (Task.id task)) ;;
    ret (Some (format_html
                 ("<a href=" ++ String (ascii_of_nat 34) url
                  ++ String (ascii_of_nat 34) (">[" ++ Task.name task
                  ++ "]</a>"))))
  else ret None.
End Admin.

(* ------------------------------------------------------------------ *)
(** * Vocabulary of the further statements                             *)
(* ------------------------------------------------------------------ *)

(** Every foreign key of every Worker points at a stored row. *)
Definition references_ok (db : DB) : Prop :=
  forall w, In w (workers db) ->
    (forall k, Worker.task w = Some k ->
       exists t, In t (tasks db) /\ Task.id t = k)
    /\ (exists c, In c (clusters db) /\ Cluster.id c = Worker.cluster w).

(** [z] passes the range validators of an integer field. *)
Definition in_range (range : Field.kind -> option Z * option Z)
    (k : Field.kind) (z : Z) : Prop :=
  (forall lo, fst (range k) = Some lo -> (lo <= z)%Z)
  /\ (forall hi, snd (range k) = Some hi -> (z <= hi)%Z).

(** An optional text that is absent or empty. *)
Definition blank_text (o : option string) : Prop := o = None \/ o = Some "".

(** An optional text that is absent, empty, or at most [n] long. *)
Definition text_within (n : nat) (o : option string) : Prop :=
  forall x, o = Some x -> String.length x <= n.

(** What [clean_fields] asks of a Schedule, field by field. *)
Definition schedule_acceptable (croniter : option Croniter)
    (range : Field.kind -> option Z * option Z) (s : Schedule.t) : Prop :=
  (forall k, Schedule.id s = Some k -> in_range range Field.AutoField k)
  /\ text_within 100 (Schedule.name s)
  /\ (Schedule.func s <> "" /\ String.length (Schedule.func s) <= 256)
  /\ text_within 256 (Schedule.hook s)
  /\ In (Schedule.schedule_type s) (map fst Schedule.TYPE)
  /\ (forall m, Schedule.minutes s = Some m ->
        in_range range Field.PositiveSmallIntegerField m)
  /\ in_range range Field.IntegerField (Schedule.repeats s)
  /\ Schedule.next_run s <> None
  /\ (blank_text (Schedule.cron s)
      \/ exists x, Schedule.cron s = Some x
                   /\ validate_cron croniter (VStr x) = Return tt
                   /\ String.length x <= 100)
  /\ text_within 100 (Schedule.task s).

(** Further sample data: a resolver under which every reference names a
    number, and schedules that point at a stored and at a missing Task. *)
Module SampleMore.

Definition import_number (_ : value) : outcome value := Return (VInt 3).

Definition schedule_of (task : option string) : Schedule.t :=
  Schedule.Build (Some 1%Z) None "math.floor" None None None Schedule.ONCE
    None (-1)%Z (Some 0%Z) None task.

Definition no_reverse (_ _ : string) : outcome string := Raise RuntimeError.

End SampleMore.

(* ------------------------------------------------------------------ *)
(** * Query sets: what the lookups select                              *)
(* ------------------------------------------------------------------ *)

Lemma value_eqb_refl v : value_eqb v v = true.
Proof. unfold value_eqb. destruct (value_eq_dec v v); congruence. Qed.

Lemma value_eqb_VStr a b : value_eqb (VStr a) (VStr b) = String.eqb a b.
Proof.
  unfold value_eqb.
  destruct (value_eq_dec (VStr a) (VStr b)) as [E | N].
  - inversion E; subst. symmetry. apply String.eqb_refl.
  - destruct (String.eqb_spec a b); [subst; contradiction | reflexivity].
Qed.

Lemma value_eqb_group g r :
  value_eqb (of_opt_str (Task.group r)) (VStr g) = in_group g r.
Proof.
  unfold in_group. destruct (Task.group r) as [h |]; simpl.
  - apply value_eqb_VStr.
  - reflexivity.
Qed.

Lemma rows_by_id s db :
  QuerySet.rows [QuerySet.Lookup "id" (fun r => VStr (Task.id r)) (VStr s)] db
  = with_id s db.
Proof.
  unfold QuerySet.rows, with_id. apply filter_ext. intros r.
  unfold QuerySet.selects, QuerySet.matches; simpl.
  rewrite value_eqb_VStr. apply andb_true_r.
Qed.

Lemma rows_by_name s db :
  QuerySet.rows
    [QuerySet.Lookup "name" (fun r => VStr (Task.name r)) (VStr s)] db
  = with_name s db.
Proof.
  unfold QuerySet.rows, with_name. apply filter_ext. intros r.
  unfold QuerySet.selects, QuerySet.matches; simpl.
  rewrite value_eqb_VStr. apply andb_true_r.
Qed.

Lemma rows_by_group g db :
  QuerySet.rows
    [QuerySet.Lookup "group" (fun r => of_opt_str (Task.group r)) (VStr g)] db
  = members g db.
Proof.
  unfold QuerySet.rows, members. apply filter_ext. intros r.
  unfold QuerySet.selects, QuerySet.matches; simpl.
  rewrite value_eqb_group. apply andb_true_r.
Qed.

(** A further lookup never widens a query set. *)
Lemma rows_narrow qs l db :
  length (QuerySet.rows (qs ++ [l]) db) <= length (QuerySet.rows qs db).
Proof.
  unfold QuerySet.rows. induction (tasks db) as [| r rest IH]; simpl.
  - lia.
  - unfold QuerySet.selects in *. rewrite forallb_app.
    destruct (forallb (QuerySet.matches r) qs); simpl.
    + destruct (QuerySet.matches r l); simpl; lia.
    + exact IH.
Qed.

Lemma filter_all_id s :
  QuerySet.filter QuerySet.all "id" (VStr s)
  = Return [QuerySet.Lookup "id" (fun r => VStr (Task.id r)) (VStr s)].
Proof. reflexivity. Qed.

Lemma filter_all_name s :
  QuerySet.filter QuerySet.all "name" (VStr s)
  = Return [QuerySet.Lookup "name" (fun r => VStr (Task.name r)) (VStr s)].
Proof. reflexivity. Qed.

Lemma filter_all_group g :
  QuerySet.filter QuerySet.all "group" (VStr g)
  = Return [QuerySet.Lookup "group" (fun r => of_opt_str (Task.group r))
              (VStr g)].
Proof. reflexivity. Qed.

(** [success] is not a field of Task. *)
Lemma filter_success qs v : QuerySet.filter qs "success" v = Raise FieldError.
Proof. reflexivity. Qed.

Lemma exists_unfold qs db :
  QuerySet.exists_ qs db
  = (Return (negb (Nat.eqb (length (QuerySet.rows qs db)) 0)), db).
Proof. reflexivity. Qed.

Lemma get_by_id s db :
  bind (QuerySet.get QuerySet.all "id" (VStr s)) (fun r => ret (Some r)) db
  = pick (with_id s db) db.
Proof.
  unfold bind, QuerySet.get, bind, lift; simpl.
  rewrite rows_by_id. destruct (with_id s db) as [| a [| b l]]; reflexivity.
Qed.

Lemma get_by_name s db :
  bind (QuerySet.get QuerySet.all "name" (VStr s)) (fun r => ret (Some r)) db
  = pick (with_name s db) db.
Proof.
  unfold bind, QuerySet.get, bind, lift; simpl.
  rewrite rows_by_name. destruct (with_name s db) as [| a [| b l]]; reflexivity.
Qed.

(** The name branch of [get_task]. *)
Lemma get_task_by_name s db :
  bind (bind (lift (QuerySet.filter QuerySet.all "name" (VStr s)))
          QuerySet.exists_)
       (fun by_name : bool =>
          if by_name
          then bind (QuerySet.get QuerySet.all "name" (VStr s))
                 (fun r => ret (Some r))
          else ret None) db
  = if negb (Nat.eqb (length (with_name s db)) 0)
    then pick (with_name s db) db
    else (Return None, db).
Proof.
  unfold bind at 1 2. unfold lift. rewrite filter_all_name.
  rewrite exists_unfold, rows_by_name.
  destruct (negb (Nat.eqb (length (with_name s db)) 0)).
  - apply get_by_name.
  - reflexivity.
Qed.

(** [get_task] unfolded into the two lookups it makes. *)
Lemma get_task_unfold s db :
  TaskManager.get_task s db =
  if Nat.eqb (String.length s) 32 && negb (Nat.eqb (length (with_id s db)) 0)
  then pick (with_id s db) db
  else if negb (Nat.eqb (length (with_name s db)) 0)
       then pick (with_name s db) db
       else (Return None, db).
Proof.
  unfold TaskManager.get_task, TaskManager.ID_LENGTH, TaskManager.get_queryset.
  unfold bind at 1.
  destruct (Nat.eqb (String.length s) 32); cbv beta iota.
  - unfold bind at 1. unfold lift. rewrite filter_all_id.
    rewrite exists_unfold, rows_by_id. rewrite andb_true_l.
    destruct (negb (Nat.eqb (length (with_id s db)) 0)).
    + apply get_by_id.
    + apply get_task_by_name.
  - unfold ret at 1. cbv beta iota. rewrite andb_false_l.
    apply get_task_by_name.
Qed.

Lemma filter_none {A} (p : A -> bool) (l : list A) :
  (forall y, In y l -> p y = false) -> filter p l = [].
Proof.
  induction l as [| x rest IH]; simpl; intros H.
  - reflexivity.
  - rewrite (H x (or_introl eq_refl)). apply IH. intros y Hy. apply H. now right.
Qed.

Lemma filter_unique_key (k : string) (l : list Task.t) (t : Task.t) :
  NoDup (map Task.id l) -> In t l -> Task.id t = k ->
  filter (fun r => String.eqb (Task.id r) k) l = [t].
Proof.
  induction l as [| x rest IH]; simpl; intros ND Hin Hk.
  - contradiction.
  - inversion ND as [| ? ? Hx ND']; subst.
    destruct Hin as [-> | Hin].
    + rewrite String.eqb_refl. f_equal.
      apply filter_none. intros y Hy.
      destruct (String.eqb_spec (Task.id y) (Task.id t)) as [E |]; [| reflexivity].
      exfalso. apply Hx. rewrite <- E. now apply in_map.
    + destruct (String.eqb_spec (Task.id x) (Task.id t)) as [E |].
      * exfalso. apply Hx. rewrite E. now apply in_map.
      * now apply IH.
Qed.

(* ------------------------------------------------------------------ *)
(** * TaskManager: lookups by id or name                               *)
(* ------------------------------------------------------------------ *)

Lemma length_two_or_more {A} (l : list A) :
  2 <= length l -> exists a b rest, l = a :: b :: rest.
Proof.
  destruct l as [| a [| b rest]]; simpl; intros H; try lia.
  now exists a, b, rest.
Qed.

(** C4 — For every string [s], [get_task s] returns the task whose id is
    [s] when [s] has the 32-character id length and such a task exists;
    otherwise (another length, or no task with that id) it falls back to
    the lookup by name, which returns no task when no name matches, the
    task when exactly one matches, and raises MultipleObjectsReturned when
    more than one matches, instead of returning the first match. *)
Theorem get_task_by_id_else_name (s : string) (db : DB)
    (PK : primary_key_ok db) :
  (String.length s = 32 ->
   forall t, In t (tasks db) -> Task.id t = s ->
   TaskManager.get_task s db = (Return (Some t), db))
  /\ (String.length s <> 32 \/ with_id s db = [] ->
      (with_name s db = [] ->
       TaskManager.get_task s db = (Return None, db))
      /\ (forall t, with_name s db = [t] ->
          TaskManager.get_task s db = (Return (Some t), db))
      /\ (2 <= length (with_name s db) ->
          TaskManager.get_task s db = (Raise MultipleObjectsReturned, db))).
Proof.
  split.
  - intros Hlen t Hin Hid. rewrite get_task_unfold.
    unfold with_id. rewrite (filter_unique_key s (tasks db) t PK Hin Hid).
    rewrite Hlen. reflexivity.
  - intros Hfall.
    assert (Hc : Nat.eqb (String.length s) 32
                 && negb (Nat.eqb (length (with_id s db)) 0) = false).
    { destruct Hfall as [Hlen | Hnone].
      - apply Nat.eqb_neq in Hlen. now rewrite Hlen.
      - rewrite Hnone. apply andb_false_r. }
    repeat split.
    + intros Hn. rewrite get_task_unfold, Hc, Hn. reflexivity.
    + intros t Hn. rewrite get_task_unfold, Hc, Hn. reflexivity.
    + intros Hn. rewrite get_task_unfold, Hc.
      destruct (length_two_or_more _ Hn) as (a & b & rest & E).
      rewrite E. reflexivity.
Qed.

Lemma get_task_by_id_else_name_witness :
  TaskManager.get_task Sample.id1 Sample.db
    = (Return (Some Sample.t1), Sample.db)
  /\ TaskManager.get_task "alpha" Sample.db
    = (Return (Some Sample.t1), Sample.db)
  /\ TaskManager.get_task "beta" Sample.db
    = (Raise MultipleObjectsReturned, Sample.db).
Proof.
  assert (PK : primary_key_ok Sample.db).
  { unfold primary_key_ok; simpl.
    repeat constructor; simpl; intuition discriminate. }
  pose proof (get_task_by_id_else_name Sample.id1 Sample.db PK) as [Hid _].
  pose proof (get_task_by_id_else_name "alpha" Sample.db PK) as [_ Ha].
  pose proof (get_task_by_id_else_name "beta" Sample.db PK) as [_ Hb].
  split; [| split].
  - apply Hid; [reflexivity | simpl; auto | reflexivity].
  - apply Ha; [left; simpl; lia | reflexivity].
  - apply Hb; [left; simpl; lia | vm_compute; lia].
Defined.

(** C10 — For every string [s] that is neither the id nor the name of a
    stored task, [get_task s] returns [None] without raising, and
    [get_result s] raises AttributeError (it reads [.result] of that
    [None]). *)
Theorem get_task_none_get_result_raises (s : string) (db : DB)
    (Hno : forall t, In t (tasks db) -> Task.id t <> s /\ Task.name t <> s) :
  TaskManager.get_task s db = (Return None, db)
  /\ TaskManager.get_result s db = (Raise AttributeError, db).
Proof.
  assert (Hid : with_id s db = []).
  { apply filter_none. intros y Hy. apply String.eqb_neq. now apply Hno. }
  assert (Hname : with_name s db = []).
  { apply filter_none. intros y Hy. apply String.eqb_neq. now apply Hno. }
  assert (Hget : TaskManager.get_task s db = (Return None, db)).
  { rewrite get_task_unfold, Hid, Hname. simpl. now rewrite andb_false_r. }
  split; [exact Hget |].
  unfold TaskManager.get_result, bind. rewrite Hget. reflexivity.
Qed.

Lemma get_task_none_get_result_raises_witness :
  TaskManager.get_task "gamma" Sample.db = (Return None, Sample.db)
  /\ TaskManager.get_result "gamma" Sample.db
     = (Raise AttributeError, Sample.db).
Proof.
  apply (get_task_none_get_result_raises "gamma" Sample.db).
  simpl. intros t [<- | [<- | [<- | []]]]; split; discriminate.
Defined.

(* ------------------------------------------------------------------ *)
(** * TaskManager: the group queries                                   *)
(* ------------------------------------------------------------------ *)

Lemma get_group_tasks_all g db :
  TaskManager.get_group_tasks g false db
  = (Return [QuerySet.Lookup "group" (fun r => of_opt_str (Task.group r))
               (VStr g)], db).
Proof. reflexivity. Qed.

Lemma get_group_tasks_failures g db :
  TaskManager.get_group_tasks g true db = (Raise FieldError, db).
Proof. reflexivity. Qed.

Lemma get_group_count_all g db :
  TaskManager.get_group_count g false db
  = (Return (length (members g db)), db).
Proof.
  unfold TaskManager.get_group_count, bind.
  rewrite get_group_tasks_all. unfold QuerySet.count.
  now rewrite rows_by_group.
Qed.

(** C5 — With [failures=True] none of the three group queries selects
    the failed rows of the group: the extra filter names the field
    [success], which Task does not declare, so each of them raises
    FieldError.  With [failures=False], [get_group_tasks] gives the query
    of the rows whose group is [g] and [get_group_count] counts exactly
    those rows. *)
Theorem group_queries_by_failures_flag (g : string) (db : DB) :
  TaskManager.get_group_tasks g true db = (Raise FieldError, db)
  /\ TaskManager.get_group_count g true db = (Raise FieldError, db)
  /\ (forall ver dec,
        TaskManager.get_group_results ver dec g true db
        = (Raise FieldError, db))
  /\ (exists qs,
        TaskManager.get_group_tasks g false db = (Return qs, db)
        /\ QuerySet.count qs db = (Return (length (members g db)), db))
  /\ TaskManager.get_group_count g false db
     = (Return (length (members g db)), db).
Proof.
  split; [apply get_group_tasks_failures |].
  split; [reflexivity |]. split; [reflexivity |]. split.
  - eexists. split; [apply get_group_tasks_all |].
    unfold QuerySet.count. now rewrite rows_by_group.
  - apply get_group_count_all.
Qed.

(** C6 — [get_group_count g failures=True] returns no count to compare:
    for every group and every state of the store it raises FieldError,
    while [get_group_count g failures=False] returns the number of rows of
    the group. *)
Theorem group_count_failures_has_no_value (g : string) (db : DB) :
  (forall n, fst (TaskManager.get_group_count g true db) <> Return n)
  /\ raised (fst (TaskManager.get_group_count g true db)) = Some FieldError
  /\ fst (TaskManager.get_group_count g false db)
     = Return (length (members g db)).
Proof.
  repeat split.
  - intros n. discriminate.
  - unfold TaskManager.get_group_count, bind.
    rewrite get_group_tasks_all. unfold QuerySet.count; simpl.
    now rewrite rows_by_group.
Qed.

(** C1 — [delete_group g] neither deletes nor untags the rows of group
    [g]: it builds its query with [get_group_tasks]'s default
    [failures=True], which raises FieldError before any row is touched, so
    the store is left as it was, for both values of the flag. *)
Theorem delete_group_touches_nothing (g : string) (cascade : bool) (db : DB) :
  TaskManager.delete_group g cascade db = (Raise FieldError, db)
  /\ members g (snd (TaskManager.delete_group g cascade db)) = members g db
  /\ TaskManager.delete_group "g1" true Sample.db
     = (Raise FieldError, Sample.db)
  /\ members "g1" Sample.db = [Sample.t1; Sample.t2].
Proof. repeat split. Qed.

(* ------------------------------------------------------------------ *)
(** * Worker: what deleting a Task or a Cluster does                   *)
(* ------------------------------------------------------------------ *)

Lemma refers_task_one k w :
  Worker.refers_task [k] w = true <-> Worker.task w = Some k.
Proof.
  unfold Worker.refers_task. destruct (Worker.task w) as [j |]; simpl.
  - rewrite orb_false_r. rewrite String.eqb_eq. split; congruence.
  - split; discriminate.
Qed.

Lemma refers_cluster_one k w :
  Worker.refers_cluster [k] w = true <-> Worker.cluster w = k.
Proof.
  unfold Worker.refers_cluster; simpl. rewrite orb_false_r.
  apply String.eqb_eq.
Qed.

(** C9 — Deleting a Task deletes no Worker: every Worker stays, with its
    id and cluster, and those that referenced the Task have their task
    reference set to null.  Deleting a Cluster deletes exactly the Workers
    that reference it and leaves the others as they were. *)
Theorem worker_relations_on_delete (t : Task.t) (c : Cluster.t) (db : DB) :
  let after_task := workers (snd (Task_delete t db)) in
  let after_cluster := workers (snd (Cluster_delete c db)) in
  map Worker.id after_task = map Worker.id (workers db)
  /\ map Worker.cluster after_task = map Worker.cluster (workers db)
  /\ (forall w, In w after_task -> Worker.task w <> Some (Task.id t))
  /\ (forall w, In w (workers db) ->
        Worker.task w = Some (Task.id t) ->
        In (Worker.clear_task w) after_task)
  /\ (forall w, In w (workers db) ->
        Worker.task w <> Some (Task.id t) -> In w after_task)
  /\ (forall w, In w after_cluster <->
        In w (workers db) /\ Worker.cluster w <> Cluster.id c).
Proof.
  unfold Task_delete, Cluster_delete, delete_tasks, delete_clusters.
  cbn [snd workers].
  unfold Worker.task_on_delete, Worker.cluster_on_delete, collect.
  set (k := Task.id t).
  repeat split.
  - rewrite map_map. apply map_ext. intros w.
    destruct (Worker.refers_task [k] w); reflexivity.
  - rewrite map_map. apply map_ext. intros w.
    destruct (Worker.refers_task [k] w); reflexivity.
  - intros w Hin Hw. apply in_map_iff in Hin as (w0 & E & _).
    destruct (Worker.refers_task [k] w0) eqn:R; subst w.
    + discriminate.
    + apply refers_task_one in Hw. congruence.
  - intros w Hin Hw. apply in_map_iff. exists w. split; [| exact Hin].
    apply refers_task_one in Hw. now rewrite Hw.
  - intros w Hin Hw. apply in_map_iff. exists w. split; [| exact Hin].
    destruct (Worker.refers_task [k] w) eqn:R; [| reflexivity].
    apply refers_task_one in R. contradiction.
  - apply filter_In in H. tauto.
  - apply filter_In in H as [_ H]. intros E.
    apply refers_cluster_one in E. rewrite E in H. discriminate H.
  - intros [Hin Hne]. apply filter_In. split; [exact Hin |].
    destruct (Worker.refers_cluster [Cluster.id c] w) eqn:R; [| reflexivity].
    apply refers_cluster_one in R. contradiction.
Qed.

(* ------------------------------------------------------------------ *)
(** * validate_cron                                                    *)
(* ------------------------------------------------------------------ *)

(** C7, as stated, fails where croniter is not installed: every
    expression, the well-formed ["0 0 * * *"] included, raises ImportError,
    which is neither "nothing" nor a ValidationError. *)
Lemma validate_cron_without_croniter :
  validate_cron None (VStr "0 0 * * *") = Raise ImportError
  /\ forall well_formed, ~ validate_cron_decides well_formed.
Proof.
  split; [reflexivity |].
  intros wf H. destruct (H None (VStr "0 0 * * *")) as [Hbad Hgood].
  destruct (wf (VStr "0 0 * * *")).
  - specialize (Hgood eq_refl). discriminate.
  - specialize (Hbad eq_refl). discriminate.
Qed.

(** [clean_fields] raises nothing exactly when every field passes. *)
Lemma clean_fields_ok range fs errors :
  Field.clean_fields range fs errors = Return tt
  <-> errors = false /\ Forall (field_ok range) fs.
Proof.
  revert errors. induction fs as [| [f raw] rest IH]; intros errors; simpl.
  - destruct errors; split; intros H.
    + discriminate.
    + destruct H; discriminate.
    + split; [reflexivity | constructor].
    + reflexivity.
  - destruct (Field.blank f && Field.empty raw) eqn:B.
    + rewrite IH. split; intros [E F]; split; auto.
      * constructor; [left; exact B | exact F].
      * now inversion F.
    + destruct (Field.clean range f raw) as [[] | e] eqn:C.
      * rewrite IH. split; intros [E F]; split; auto.
        -- constructor; [right; exact C | exact F].
        -- now inversion F.
      * assert (Hbad : ~ Forall (field_ok range) ((f, raw) :: rest)).
        { intros F. inversion F as [| ? ? [H | H] _]; subst; simpl in H.
          - rewrite B in H. discriminate.
          - rewrite C in H. discriminate. }
        destruct (issubclass e ValidationError).
        -- rewrite IH. split; intros [E F]; [discriminate | contradiction].
        -- split; [discriminate | intros [_ F]; contradiction].
Qed.

(** The validators of Django raise nothing but ValidationError. *)
Lemma MaxLengthValidator_tame n v :
  only_validation_errors (Field.MaxLengthValidator n v).
Proof.
  intros e. unfold Field.MaxLengthValidator.
  destruct v; try discriminate.
  destruct (Nat.ltb n (String.length s)); [congruence | discriminate].
Qed.

Lemma MinValueValidator_tame z v :
  only_validation_errors (Field.MinValueValidator z v).
Proof.
  intros e. unfold Field.MinValueValidator.
  destruct v; try discriminate.
  destruct (Z.ltb z0 z); [congruence | discriminate].
Qed.

Lemma MaxValueValidator_tame z v :
  only_validation_errors (Field.MaxValueValidator z v).
Proof.
  intros e. unfold Field.MaxValueValidator.
  destruct v; try discriminate.
  destruct (Z.ltb z z0); [congruence | discriminate].
Qed.

Lemma range_validators_tame range k v :
  Forall (fun check : Field.validator => only_validation_errors (check v))
    (Field.range_validators range k).
Proof.
  unfold Field.range_validators.
  destruct (range k) as [[lo |] [hi |]]; simpl;
    repeat constructor;
    auto using MinValueValidator_tame, MaxValueValidator_tame.
Qed.

Lemma validate_tame f v : only_validation_errors (Field.validate f v).
Proof.
  intros e. unfold Field.validate.
  repeat match goal with
         | |- context [if ?b then _ else _] => destruct b
         end; congruence.
Qed.

Lemma run_all_tame vs v errors :
  Forall (fun check : Field.validator => only_validation_errors (check v)) vs ->
  only_validation_errors (Field.run_all vs v errors).
Proof.
  intros F. revert errors.
  induction F as [| check rest Hc _ IH]; intros errors e; simpl.
  - destruct errors; congruence.
  - destruct (check v) as [a | e0] eqn:C.
    + apply IH.
    + rewrite (Hc e0 eq_refl). simpl. apply IH.
Qed.

Lemma clean_tame range f v :
  Forall (fun check : Field.validator => only_validation_errors (check v))
    (Field.validators f) ->
  only_validation_errors (Field.clean range f v).
Proof.
  intros F e. unfold Field.clean.
  destruct (Field.validate f v) as [a | e0] eqn:V.
  - unfold Field.run_validators. destruct (Field.empty v); [discriminate |].
    apply run_all_tame. unfold Field.all_validators.
    destruct (Field.type f); try exact F.
    + apply Forall_app. split; [apply range_validators_tame | exact F].
    + apply Forall_app. split; [exact F |].
      constructor; [apply MaxLengthValidator_tame | constructor].
    + apply Forall_app. split; [apply range_validators_tame | exact F].
    + apply Forall_app. split; [apply range_validators_tame | exact F].
  - intros E. apply (validate_tame f v). congruence.
Qed.

Lemma clean_fields_tame range fs errors :
  Forall (fun p => only_validation_errors
                     (Field.clean range (fst p) (snd p))) fs ->
  only_validation_errors (Field.clean_fields range fs errors).
Proof.
  intros F. revert errors.
  induction F as [| [f raw] rest Hc _ IH]; intros errors e; simpl.
  - destruct errors; congruence.
  - destruct (Field.blank f && Field.empty raw); [apply IH |].
    destruct (Field.clean range f raw) as [a | e0] eqn:C.
    + apply IH.
    + simpl in Hc. rewrite (Hc e0 C). simpl. apply IH.
Qed.

(** The fields of a Schedule raise nothing but ValidationError once the
    cron validator does so on the schedule's cron value. *)
Lemma schedule_fields_tame croniter range s :
  only_validation_errors
    (validate_cron croniter (of_opt_str (Schedule.cron s))) ->
  only_validation_errors (Schedule.full_clean croniter range s).
Proof.
  intros Hcron. unfold Schedule.full_clean. apply clean_fields_tame.
  unfold Schedule.fields.
  repeat apply Forall_cons; try apply Forall_nil;
    apply clean_tame; simpl; repeat constructor.
  exact Hcron.
Qed.

(** C7 (amended) — With croniter installed, [validate_cron] raises
    nothing on every expression that [croniter.expand] accepts, and raises
    ValidationError on every expression on which [croniter.expand] raises
    ValueError (or a class derived from it, as croniter's own errors are);
    as the validator of [Schedule.cron] it makes [full_clean] reject, with
    ValidationError, a schedule whose non-empty cron is such an
    expression.  Without croniter it raises ImportError on every
    expression. *)
Theorem validate_cron_with_croniter (c : Croniter) (v : value) :
  (expand c v = Return tt -> validate_cron (Some c) v = Return tt)
  /\ (forall e, expand c v = Raise e -> issubclass e ValueError = true ->
        validate_cron (Some c) v = Raise ValidationError)
  /\ (forall e range s x,
        v = VStr x -> x <> "" -> Schedule.cron s = Some x ->
        expand c v = Raise e -> issubclass e ValueError = true ->
        Schedule.full_clean (Some c) range s = Raise ValidationError)
  /\ validate_cron None v = Raise ImportError.
Proof.
  assert (Hbad : forall e, expand c v = Raise e ->
                           issubclass e ValueError = true ->
                           validate_cron (Some c) v = Raise ValidationError).
  { intros e H Hsub. unfold validate_cron, try_except, handled.
    rewrite H. simpl. now rewrite Hsub. }
  split; [| split; [exact Hbad | split; [| reflexivity]]].
  - intros H. unfold validate_cron, try_except. now rewrite H.
  - intros e range s x -> Hx Hcron H Hsub.
    specialize (Hbad e H Hsub).
    assert (Htame : only_validation_errors
                      (Schedule.full_clean (Some c) range s)).
    { apply schedule_fields_tame. rewrite Hcron. cbn [of_opt_str].
      rewrite Hbad. intros e0 E. congruence. }
    destruct (Schedule.full_clean (Some c) range s) as [[] | e0] eqn:FC.
    + exfalso. unfold Schedule.full_clean in FC.
      apply clean_fields_ok in FC as [_ F].
      rewrite Forall_forall in F.
      assert (Hin : In (Field.Build "cron" (Field.CharField 100) true true
                          true None [validate_cron (Some c)], VStr x)
                       (Schedule.fields (Some c) s)).
      { unfold Schedule.fields. rewrite Hcron. simpl. tauto. }
      apply String.eqb_neq in Hx.
      destruct (F _ Hin) as [B | C]; simpl in B || simpl in C.
      * rewrite Hx in B. discriminate.
      * unfold Field.clean, Field.run_validators in C. simpl in C.
        rewrite Hx in C. simpl in C.
        unfold validate_cron in Hbad. rewrite Hbad in C. simpl in C.
        destruct (Nat.ltb 100 (String.length x)); discriminate.
    + now rewrite (Htame e0 eq_refl).
Qed.

Lemma validate_cron_with_croniter_witness :
  validate_cron (Some SampleSchedule.croniter) (VStr "0 0 * * *") = Return tt
  /\ validate_cron (Some SampleSchedule.croniter) (VStr "every day")
     = Raise ValidationError.
Proof.
  split.
  - apply (proj1 (validate_cron_with_croniter SampleSchedule.croniter
                    (VStr "0 0 * * *"))).
    reflexivity.
  - apply (proj1 (proj2 (validate_cron_with_croniter SampleSchedule.croniter
                           (VStr "every day"))) CroniterBadCronError);
      reflexivity.
Defined.

Example full_clean_rejects_malformed_cron :
  Schedule.full_clean (Some SampleSchedule.croniter)
    SampleSchedule.integer_field_range
    (SampleSchedule.make Schedule.CRON None (Some "every day"))
  = Raise ValidationError.
Proof. reflexivity. Qed.

(* ------------------------------------------------------------------ *)
(** * Schedule: what a validated write checks                          *)
(* ------------------------------------------------------------------ *)

Lemma upsert_schedule_In k s rows : In s (upsert_schedule k s rows).
Proof.
  induction rows as [| x rest IH]; simpl.
  - now left.
  - destruct (same_schedule_id k x); simpl; auto.
Qed.

(** What passes [full_clean] is stored by a validated write. *)
Lemma validated_save_stores croniter range s db :
  Schedule.full_clean croniter range s = Return tt ->
  exists s' db',
    Schedule_validated_save croniter range s db = (Return s', db')
    /\ In s' (schedules db')
    /\ Schedule.schedule_type s' = Schedule.schedule_type s
    /\ Schedule.minutes s' = Schedule.minutes s
    /\ Schedule.cron s' = Schedule.cron s.
Proof.
  intros H. unfold Schedule_validated_save, bind, lift. rewrite H.
  unfold Schedule_save. do 2 eexists. split; [reflexivity |].
  split; [apply upsert_schedule_In |]. repeat split.
Qed.

(** C8, as stated, fails: a schedule of the Minutes type without minutes
    passes the validated write and is stored. *)
Lemma minutes_schedule_without_minutes_is_stored :
  (exists s' db',
     Schedule_validated_save (Some SampleSchedule.croniter)
       SampleSchedule.integer_field_range
       (SampleSchedule.make Schedule.MINUTES None None)
       SampleSchedule.empty_db = (Return s', db')
     /\ In s' (schedules db')
     /\ Schedule.schedule_type s' = Schedule.MINUTES
     /\ Schedule.minutes s' = None)
  /\ ~ presence_enforced_at_write.
Proof.
  split.
  - do 2 eexists. split; [reflexivity |]. simpl. repeat split. now left.
  - intros H.
    specialize (H (Some SampleSchedule.croniter)
                  SampleSchedule.integer_field_range
                  (SampleSchedule.make Schedule.MINUTES None None)
                  SampleSchedule.empty_db _ _ eq_refl).
    destruct H as [[_ Hm] _]. simpl in Hm. now apply Hm.
Qed.

Lemma type_key_ok range croniter ty s :
  In ty (map fst Schedule.TYPE) ->
  field_ok range
    (nth 6 (Schedule.fields croniter
              (with_type_minutes_cron ty None None s))
       (Field.Build "" Field.TextField true true true None [], VNone)).
Proof.
  simpl. intros H. right.
  repeat (destruct H as [<- | H]; [reflexivity |]). contradiction.
Qed.

(** C8 (amended) — The validated write of a Schedule does not relate
    [minutes] or [cron] to [schedule_type]: a schedule that passes
    [full_clean] still passes it, and is stored, with any of the nine
    schedule types in place of its own, and with [minutes], [cron] or both
    set to null. *)
Theorem schedule_presence_not_checked
    (croniter : option Croniter)
    (range : Field.kind -> option Z * option Z)
    (s : Schedule.t) (ty : string) (keep_minutes keep_cron : bool) (db : DB)
    (Hs : Schedule.full_clean croniter range s = Return tt)
    (Hty : In ty (map fst Schedule.TYPE)) :
  let m := if keep_minutes then Schedule.minutes s else None in
  let c := if keep_cron then Schedule.cron s else None in
  Schedule.full_clean croniter range (with_type_minutes_cron ty m c s)
    = Return tt
  /\ exists s' db',
       Schedule_validated_save croniter range
         (with_type_minutes_cron ty m c s) db = (Return s', db')
       /\ In s' (schedules db')
       /\ Schedule.schedule_type s' = ty
       /\ Schedule.minutes s' = m
       /\ Schedule.cron s' = c.
Proof.
  intros m c.
  assert (Hok : Schedule.full_clean croniter range
                  (with_type_minutes_cron ty m c s) = Return tt).
  { unfold Schedule.full_clean in *.
    apply clean_fields_ok in Hs as [_ F]. apply clean_fields_ok.
    split; [reflexivity |].
    pose proof (type_key_ok range croniter ty s Hty) as Hkey.
    unfold Schedule.fields in *. simpl in F, Hkey. simpl.
    repeat match goal with
           | H : Forall _ (_ :: _) |- _ => inversion H; clear H; subst
           end.
    repeat apply Forall_cons; try apply Forall_nil; try assumption.
    - subst m. destruct keep_minutes; [assumption | now left].
    - subst c. destruct keep_cron; [assumption | now left]. }
  split; [exact Hok |].
  destruct (validated_save_stores croniter range _ db Hok)
    as (s' & db' & E & Hin & Ht & Hm & Hc).
  exists s', db'. repeat split; assumption.
Qed.

Lemma schedule_presence_not_checked_witness :
  Schedule.full_clean (Some SampleSchedule.croniter)
    SampleSchedule.integer_field_range
    (with_type_minutes_cron Schedule.CRON (Some 15%Z) None
       (SampleSchedule.make Schedule.MINUTES (Some 15%Z) (Some "0 0 * * *")))
  = Return tt.
Proof.
  apply (schedule_presence_not_checked (Some SampleSchedule.croniter)
           SampleSchedule.integer_field_range
           (SampleSchedule.make Schedule.MINUTES (Some 15%Z)
              (Some "0 0 * * *"))
           Schedule.CRON true false SampleSchedule.empty_db).
  - reflexivity.
  - simpl. tauto.
Defined.

(* ------------------------------------------------------------------ *)
(** * The post_save hook                                               *)
(* ------------------------------------------------------------------ *)


(** C2, as stated, fails: a hook that raises SystemExit, which does not
    derive from Exception, is not caught, and the exception reaches the
    caller of [save]. *)
Lemma hook_exit_escapes_save :
  fst (fst (Signals.Task_save SampleHooks.import_function SampleHooks.run
              (SampleHooks.finished (VFn 2)) Sample.db SampleHooks.quiet))
    = Raise SystemExit
  /\ ~ no_exception_escapes_save.
Proof.
  split; [reflexivity |].
  intros H.
  specialize (H SampleHooks.import_function SampleHooks.run
                (SampleHooks.finished (VFn 2)) Sample.db SampleHooks.quiet).
  discriminate H.
Qed.

(** A save of a Task whose hook is null or empty calls nothing. *)
Lemma no_hook_no_call import_function run instance db w :
  truthy (Task.hook instance) = false ->
  Signals.Task_save import_function run instance db w
  = (Return tt, write_task instance db, w).
Proof.
  intros T. unfold Signals.Task_save, Signals.call_hook. now rewrite T.
Qed.

(** C3 — The hook callback is called on the save of a Task that has a
    hook whatever the Task's status: [call_hook] never reads [status], so
    the save of a pending or running Task calls it as the save of a
    finished one does. *)
Theorem hook_called_whatever_the_status
    (import_function : value -> outcome value)
    (run : nat -> Task.t -> outcome unit)
    (status : Task.STATUS_CHOICES) (db : DB) (w : Signals.env) :
  Signals.called
    (snd (Signals.Task_save import_function run
            (SampleHooks.unfinished status) db w))
  = (0, SampleHooks.unfinished status) :: Signals.called w.
Proof.
  unfold Signals.Task_save, Signals.call_hook, Signals.resolve, Signals.call.
  cbn [SampleHooks.unfinished Sample.task Task.hook truthy callable negb].
  destruct (run 0 (SampleHooks.unfinished status)) as [[] | e].
  - reflexivity.
  - destruct (handled [Exception] e); reflexivity.
Qed.

(* ------------------------------------------------------------------ *)
(** * Further properties: lookups, saves and deletes                   *)
(* ------------------------------------------------------------------ *)

Lemma pick_cases found db :
  (found = [] /\ pick found db = (Raise ObjectDoesNotExist, db))
  \/ (exists r, found = [r] /\ pick found db = (Return (Some r), db))
  \/ (2 <= length found /\ pick found db = (Raise MultipleObjectsReturned, db)).
Proof.
  destruct found as [| a [| b l]]; simpl.
  - now left.
  - right; left. now exists a.
  - right; right. split; [lia | reflexivity].
Qed.

Lemma nonempty_length {A} (l : list A) :
  negb (Nat.eqb (length l) 0) = true <-> l <> [].
Proof. destruct l; simpl; split; congruence. Qed.

Lemma get_task_reads (s : string) (db : DB) :
  snd (TaskManager.get_task s db) = db
  /\ (forall e, fst (TaskManager.get_task s db) = Raise e ->
        e = MultipleObjectsReturned)
  /\ (forall t, fst (TaskManager.get_task s db) = Return (Some t) ->
        In t (tasks db)
        /\ ((String.length s = 32 /\ Task.id t = s) \/ Task.name t = s)).
Proof.
  rewrite get_task_unfold.
  destruct (Nat.eqb (String.length s) 32
            && negb (Nat.eqb (length (with_id s db)) 0)) eqn:Cid.
  - apply andb_true_iff in Cid as [Hlen Hne].
    apply Nat.eqb_eq in Hlen. apply nonempty_length in Hne.
    destruct (pick_cases (with_id s db) db)
      as [[E _] | [(r & E & P) | [_ P]]]; [contradiction | |];
      rewrite P; simpl; (split; [reflexivity |]); split;
        try (intros; congruence).
    intros t Ht. inversion Ht; subst t.
    assert (Hr : In r (with_id s db)) by (rewrite E; now left).
    apply filter_In in Hr as [Hin Hk]. apply String.eqb_eq in Hk. auto.
  - destruct (negb (Nat.eqb (length (with_name s db)) 0)) eqn:Cname.
    + apply nonempty_length in Cname.
      destruct (pick_cases (with_name s db) db)
        as [[E _] | [(r & E & P) | [_ P]]]; [contradiction | |];
        rewrite P; simpl; (split; [reflexivity |]); split;
          try (intros; congruence).
      intros t Ht. inversion Ht; subst t.
      assert (Hr : In r (with_name s db)) by (rewrite E; now left).
      apply filter_In in Hr as [Hin Hk]. apply String.eqb_eq in Hk. auto.
    + simpl. split; [reflexivity |]. split; intros; discriminate.
Qed.

(** [get_task] reads only: it returns a stored row whose id (for a
    32-character argument) or name is the argument, leaves the store as it
    is, and the only exception it can raise is MultipleObjectsReturned: the
    [exists()] tests keep DoesNotExist from ever being raised. *)
Theorem get_task_sound (s : string) (db : DB) :
  snd (TaskManager.get_task s db) = db
  /\ (forall e, fst (TaskManager.get_task s db) = Raise e ->
        e = MultipleObjectsReturned)
  /\ (forall t, fst (TaskManager.get_task s db) = Return (Some t) ->
        In t (tasks db)
        /\ ((String.length s = 32 /\ Task.id t = s) \/ Task.name t = s)).
Proof.
  destruct (get_task_reads s db) as (Hstore & Hexn & Hrow).
  split; [exact Hstore |]. split; [exact Hexn | exact Hrow].
Qed.


(** A shorthand: [get_task] finds nothing under [s]. *)
Lemma get_task_none_iff s db :
  TaskManager.get_task s db = (Return None, db)
  <-> (String.length s <> 32 \/ with_id s db = []) /\ with_name s db = [].
Proof.
  rewrite get_task_unfold.
  destruct (Nat.eqb (String.length s) 32) eqn:L; simpl.
  - apply Nat.eqb_eq in L.
    destruct (with_id s db) as [| a [| b l]] eqn:I; simpl.
    + destruct (with_name s db) as [| a' [| b' l']]; simpl; split;
        try discriminate; try (intros [_ H]; discriminate H); auto.
    + split; [discriminate |]. intros [[H | H] _]; [lia | discriminate].
    + split; [discriminate |]. intros [[H | H] _]; [lia | discriminate].
  - apply Nat.eqb_neq in L.
    destruct (with_name s db) as [| a' [| b' l']]; simpl; split;
      try discriminate; try (intros [_ H]; discriminate H); auto.
Qed.

(** [get_result] raises AttributeError exactly when no row matches the
    argument by id or by name; when [get_task] finds a row it returns
    that row's result; it never changes the store. *)
Theorem get_result_by_cases (s : string) (db : DB) :
  (TaskManager.get_result s db = (Raise AttributeError, db)
   <-> (String.length s <> 32 \/ with_id s db = []) /\ with_name s db = [])
  /\ (forall t, TaskManager.get_task s db = (Return (Some t), db) ->
        TaskManager.get_result s db = (Return (Task.result t), db))
  /\ snd (TaskManager.get_result s db) = db.
Proof.
  pose proof (get_task_reads s db) as (Hdb & Hexn & _).
  unfold TaskManager.get_result, bind.
  destruct (TaskManager.get_task s db) as [[[t |] | e] db'] eqn:G;
    simpl in Hdb; subst db'.
  - split; [| split; [| reflexivity]].
    + rewrite <- get_task_none_iff, G. split; discriminate.
    + intros t' E. inversion E; subst. reflexivity.
  - split; [| split; [| reflexivity]].
    + rewrite <- get_task_none_iff, G. split; reflexivity.
    + intros t' E. discriminate E.
  - split; [| split; [| reflexivity]].
    + rewrite <- get_task_none_iff, G.
      specialize (Hexn e eq_refl). subst e. split; discriminate.
    + intros t' E. discriminate E.
Qed.






(** Delete, then look up: after [delete()] of a Task no stored row has
    its id, every other row is kept, the primary key stays unique, the
    other tables' rows are untouched, and [get_task] under that id can only
    find a row by name. *)
Theorem deleted_task_is_gone (t : Task.t) (db : DB) :
  let db' := snd (Task_delete t db) in
  with_id (Task.id t) db' = []
  /\ (forall r, In r (tasks db') <->
        In r (tasks db) /\ Task.id r <> Task.id t)
  /\ (primary_key_ok db -> primary_key_ok db')
  /\ schedules db' = schedules db
  /\ clusters db' = clusters db
  /\ (forall r, fst (TaskManager.get_task (Task.id t) db') = Return (Some r) ->
        Task.name r = Task.id t /\ Task.id r <> Task.id t).
Proof.
  intros db'.
  assert (Hrows : forall r, In r (tasks db') <->
                            In r (tasks db) /\ Task.id r <> Task.id t).
  { intros r. subst db'. unfold Task_delete, delete_tasks; simpl.
    rewrite filter_In, orb_false_r, negb_true_iff, String.eqb_neq. tauto. }
  assert (Hgone : with_id (Task.id t) db' = []).
  { apply filter_none. intros y Hy. apply Hrows in Hy as [_ Hy].
    now apply String.eqb_neq. }
  split; [exact Hgone |]. split; [exact Hrows |].
  split; [| split; [reflexivity | split; [reflexivity |]]].
  - unfold primary_key_ok. subst db'. unfold Task_delete, delete_tasks; simpl.
    generalize (tasks db). intros l ND.
    induction l as [| x rest IH]; simpl; [constructor |].
    inversion ND as [| ? ? Hx ND']; subst.
    destruct (negb (String.eqb (Task.id x) (Task.id t) || false)); simpl.
    + constructor; [| now apply IH].
      intros H. apply Hx. apply in_map_iff in H as (y & E & Hy).
      apply filter_In in Hy as [Hy _]. apply in_map_iff. now exists y.
    + now apply IH.
  - intros r Hr.
    destruct (proj2 (proj2 (get_task_reads (Task.id t) db')) r Hr)
      as [Hin [[_ Hid] | Hname]].
    + apply Hrows in Hin as [_ Hne]. contradiction.
    + split; [exact Hname |]. now apply Hrows in Hin.
Qed.

(* ------------------------------------------------------------------ *)
(** * Further properties: groups, proxy managers, instance methods     *)
(* ------------------------------------------------------------------ *)

(** Reading rows always fails for Task: the default ordering names
    [stopped], which is no field. *)
Lemma fetch_raises qs db : QuerySet.fetch qs db = (Raise FieldError, db).
Proof. reflexivity. Qed.

Lemma fetch_values_raises values db :
  QuerySet.fetch_values values db = (Raise FieldError, db).
Proof. reflexivity. Qed.

(** The results of a group cannot be read: [get_group_results g]
    (failures left at False) never hands back decoded values.  Without a
    second version component it raises IndexError; on a Django x.7 it
    iterates over the values list and raises FieldError, because the
    default ordering [-stopped] names no field of Task; on any other
    version it returns the values list unread, and reading it raises that
    FieldError, whatever the store holds then. *)
Theorem group_results_cannot_be_read
    (ver : list string) (dec : value -> value) (g : string) (db : DB) :
  (length ver < 2 ->
   TaskManager.get_group_results ver dec g false db = (Raise IndexError, db))
  /\ (nth_error ver 1 = Some "7" ->
      TaskManager.get_group_results ver dec g false db
      = (Raise FieldError, db))
  /\ (forall minor, nth_error ver 1 = Some minor -> minor <> "7" ->
      exists values,
        TaskManager.get_group_results ver dec g false db
        = (Return (TaskManager.Unread values), db)
        /\ forall db', QuerySet.fetch_values values db'
                       = (Raise FieldError, db'))
  /\ (forall vs, fst (TaskManager.get_group_results ver dec g false db)
                 <> Return (TaskManager.Decoded vs)).
Proof.
  assert (Hres : TaskManager.get_group_results ver dec g false db
                 = TaskManager.decode_results ver dec
                     (QuerySet.Values
                        [QuerySet.Lookup "group"
                           (fun r => of_opt_str (Task.group r)) (VStr g)]
                        "result" Task.result) db).
  { unfold TaskManager.get_group_results, bind.
    rewrite get_group_tasks_all. reflexivity. }
  rewrite Hres. unfold TaskManager.decode_results.
  split; [| split; [| split]].
  - intros Hver.
    destruct (nth_error ver 1) as [minor |] eqn:N; [| reflexivity].
    assert (Hsome : nth_error ver 1 <> None) by congruence.
    apply nth_error_Some in Hsome. lia.
  - intros N. rewrite N. reflexivity.
  - intros minor N Hne. rewrite N.
    apply String.eqb_neq in Hne. rewrite Hne.
    eexists. split; [reflexivity |]. intros db'. apply fetch_values_raises.
  - intros vs. destruct (nth_error ver 1) as [minor |]; [| discriminate].
    destruct (String.eqb minor "7"); discriminate.
Qed.

Lemma group_results_cannot_be_read_witness :
  TaskManager.get_group_results ["1"; "7"] (fun v => v) "g1" false Sample.db
  = (Raise FieldError, Sample.db).
Proof.
  apply (proj1 (proj2 (group_results_cannot_be_read ["1"; "7"] (fun v => v)
                         "g1" Sample.db))).
  reflexivity.
Defined.

(** The generic methods, on the plain manager, are the methods of
    [TaskManager]. *)
Lemma plain_manager_get_task s db :
  Managers.get_task Managers.Task_objects s db = TaskManager.get_task s db.
Proof.
  unfold Managers.get_task, TaskManager.get_task, TaskManager.get_queryset.
  unfold bind, lift; simpl.
  destruct (Nat.eqb (String.length s) TaskManager.ID_LENGTH); reflexivity.
Qed.

Lemma plain_manager_groups g b db :
  Managers.get_group_tasks Managers.Task_objects g b db
    = TaskManager.get_group_tasks g b db
  /\ Managers.get_group_count Managers.Task_objects g b db
     = TaskManager.get_group_count g b db
  /\ Managers.delete_group Managers.Task_objects g b db
     = TaskManager.delete_group g b db.
Proof. destruct b; repeat split. Qed.

(** A manager whose query set cannot be built fails in every method,
    before reading or writing a row. *)
Lemma failing_manager (self : Managers.Manager) (e : exn) :
  @Managers.get_queryset self = Raise e ->
  forall s b ver dec db,
    Managers.get_task self s db = (Raise e, db)
    /\ Managers.get_result self s db = (Raise e, db)
    /\ Managers.get_group_tasks self s b db = (Raise e, db)
    /\ Managers.get_group_count self s b db = (Raise e, db)
    /\ Managers.get_group_results self ver dec s b db = (Raise e, db)
    /\ Managers.delete_group self s b db = (Raise e, db).
Proof.
  intros H s b ver dec db.
  assert (Htask : Managers.get_task self s db = (Raise e, db)).
  { unfold Managers.get_task, bind, lift. rewrite H.
    destruct (Nat.eqb (String.length s) TaskManager.ID_LENGTH); reflexivity. }
  assert (Hgroup : forall c, Managers.get_group_tasks self s c db
                             = (Raise e, db)).
  { intros c. unfold Managers.get_group_tasks, bind, lift. now rewrite H. }
  split; [exact Htask |]. split.
  { unfold Managers.get_result, bind. now rewrite Htask. }
  split; [apply Hgroup |]. split.
  { unfold Managers.get_group_count, bind. now rewrite Hgroup. }
  split.
  { unfold Managers.get_group_results, bind. now rewrite Hgroup. }
  unfold Managers.delete_group, bind. now rewrite Hgroup.
Qed.

(** The managers of the proxy models cannot be used: [Success.objects]
    and [Failure.objects] build their query set with a filter on
    [success], which Task does not declare, so every inherited method
    (get_task, get_result, the group queries, delete_group) raises
    FieldError on every argument and leaves the store as it is. *)
Theorem proxy_managers_always_raise
    (failure : bool) (s : string) (b : bool)
    (ver : list string) (dec : value -> value) (db : DB) :
  let objects := if failure then Managers.Failure_objects
                 else Managers.Success_objects in
  @Managers.get_queryset objects = Raise FieldError
  /\ Managers.get_task objects s db = (Raise FieldError, db)
  /\ Managers.get_result objects s db = (Raise FieldError, db)
  /\ Managers.get_group_tasks objects s b db = (Raise FieldError, db)
  /\ Managers.get_group_count objects s b db = (Raise FieldError, db)
  /\ Managers.get_group_results objects ver dec s b db = (Raise FieldError, db)
  /\ Managers.delete_group objects s b db = (Raise FieldError, db).
Proof.
  intros objects.
  assert (H : @Managers.get_queryset objects = Raise FieldError)
    by (subst objects; destruct failure; reflexivity).
  split; [exact H |]. now apply failing_manager.
Qed.

(** The two group methods of a Task instance never give a result: for a
    Task without group (null or empty) they return None, and for a Task
    with a group they raise AttributeError, because they reach for the
    manager through the instance; the store is not read. *)
Theorem Task_group_methods_never_answer
    (ver : list string) (dec : value -> value)
    (self : Task.t) (failures : bool) (db : DB) :
  (blank_text (Task.group self) ->
   Task_group_result ver dec self failures db = (Return None, db)
   /\ Task_group_count self failures db = (Return None, db))
  /\ (~ blank_text (Task.group self) ->
      Task_group_result ver dec self failures db = (Raise AttributeError, db)
      /\ Task_group_count self failures db = (Raise AttributeError, db))
  /\ (forall vs, fst (Task_group_result ver dec self failures db)
                 <> Return (Some vs))
  /\ (forall n, fst (Task_group_count self failures db) <> Return (Some n)).
Proof.
  unfold Task_group_result, Task_group_count, blank_text.
  destruct (Task.group self) as [g |].
  - destruct (String.eqb_spec g "") as [-> | Hne].
    + simpl. split; [intros _; split; reflexivity |].
      split; [intros N; exfalso; apply N; now right |].
      split; intros ?; discriminate.
    + assert (T : truthy (VStr g) = true).
      { simpl. apply negb_true_iff. now apply String.eqb_neq. }
      rewrite T. split; [| split; [| split]].
      * intros [E | E]; [discriminate | congruence].
      * intros _. split; reflexivity.
      * discriminate.
      * discriminate.
  - split; [intros _; split; reflexivity |].
    split; [intros N; exfalso; apply N; now left |].
    split; intros ?; discriminate.
Qed.

Lemma Task_group_methods_never_answer_witness :
  Task_group_count Sample.t1 false Sample.db = (Raise AttributeError, Sample.db)
  /\ Task_group_count Sample.t3 false Sample.db = (Return None, Sample.db).
Proof.
  split.
  - apply (proj1 (proj2 (Task_group_methods_never_answer [] (fun v => v)
                           Sample.t1 false Sample.db))).
    unfold blank_text; simpl. intros [H | H]; discriminate H.
  - apply (proj1 (Task_group_methods_never_answer [] (fun v => v)
                    Sample.t3 false Sample.db)).
    left. reflexivity.
Defined.

(* ------------------------------------------------------------------ *)
(** * Further properties: the Schedule's view of its last Task         *)
(* ------------------------------------------------------------------ *)

(** The test the two methods start with: a schedule without task id
    fails it without a query; for any other the truth value of the query
    set is taken, which reads its rows. *)
Lemma Schedule_has_task_cases self db :
  (blank_text (Schedule.task self)
   /\ Schedule_has_task self db = (Return false, db))
  \/ (~ blank_text (Schedule.task self)
      /\ Schedule_has_task self db = (Raise FieldError, db)).
Proof.
  unfold Schedule_has_task, blank_text.
  destruct (Schedule.task self) as [k |]; simpl; [| left; auto].
  destruct (String.eqb_spec k "") as [-> | Hne]; simpl; [left; auto |].
  right. split; [| reflexivity].
  intros [E | E]; [discriminate E | congruence].
Qed.

(** [Schedule.success()] never reports a success flag: for a schedule
    without task id (null or empty) it returns None, and for any other it
    raises FieldError, whether the Task is stored or not, because it takes
    the truth value of a Task query set, whose default ordering [-stopped]
    names no field; the store is not changed. *)
Theorem Schedule_success_never_reports (self : Schedule.t) (db : DB) :
  (blank_text (Schedule.task self) ->
   Schedule_success self db = (Return None, db))
  /\ (~ blank_text (Schedule.task self) ->
      Schedule_success self db = (Raise FieldError, db))
  /\ (forall v, fst (Schedule_success self db) <> Return (Some v)).
Proof.
  unfold Schedule_success, bind.
  destruct (Schedule_has_task_cases self db) as [[B E] | [B E]]; rewrite E.
  - split; [reflexivity |]. split; [contradiction | discriminate].
  - split; [contradiction |]. split; [reflexivity | discriminate].
Qed.

(** [Schedule.last_run()] never builds a link: for a schedule without
    task id it returns None, and for any other it raises FieldError at the
    same test, whether the Task is stored or not, so [reverse] and
    [format_html] are never reached, whatever they would do. *)
Theorem Schedule_last_run_never_links
    (reverse : string -> string -> outcome string)
    (format_html : string -> string) (self : Schedule.t) (db : DB) :
  (blank_text (Schedule.task self) ->
   Schedule_last_run reverse format_html self db = (Return None, db))
  /\ (~ blank_text (Schedule.task self) ->
      Schedule_last_run reverse format_html self db = (Raise FieldError, db))
  /\ (forall link, fst (Schedule_last_run reverse format_html self db)
                   <> Return (Some link)).
Proof.
  unfold Schedule_last_run, bind.
  destruct (Schedule_has_task_cases self db) as [[B E] | [B E]]; rewrite E.
  - split; [reflexivity |]. split; [contradiction | discriminate].
  - split; [contradiction |]. split; [reflexivity | discriminate].
Qed.

Lemma Schedule_success_never_reports_witness :
  Schedule_success (SampleMore.schedule_of (Some Sample.id1)) Sample.db
    = (Raise FieldError, Sample.db)
  /\ Schedule_success (SampleMore.schedule_of None) Sample.db
     = (Return None, Sample.db).
Proof.
  split.
  - apply (proj1 (proj2 (Schedule_success_never_reports
                           (SampleMore.schedule_of (Some Sample.id1))
                           Sample.db))).
    unfold blank_text; simpl. intros [E | E]; discriminate E.
  - apply (proj1 (Schedule_success_never_reports
                    (SampleMore.schedule_of None) Sample.db)).
    left. reflexivity.
Defined.

Lemma Schedule_last_run_never_links_witness :
  Schedule_last_run SampleMore.no_reverse (fun x => x)
    (SampleMore.schedule_of (Some "no-such-task")) Sample.db
    = (Raise FieldError, Sample.db)
  /\ Schedule_last_run SampleMore.no_reverse (fun x => x)
       (SampleMore.schedule_of (Some "")) Sample.db
     = (Return None, Sample.db).
Proof.
  split.
  - apply (proj1 (proj2 (Schedule_last_run_never_links
                           SampleMore.no_reverse (fun x => x)
                           (SampleMore.schedule_of (Some "no-such-task"))
                           Sample.db))).
    unfold blank_text; simpl. intros [E | E]; discriminate E.
  - apply (proj1 (Schedule_last_run_never_links
                    SampleMore.no_reverse (fun x => x)
                    (SampleMore.schedule_of (Some "")) Sample.db)).
    right. reflexivity.
Defined.

(* ------------------------------------------------------------------ *)
(** * Further properties: the hook                                     *)
(* ------------------------------------------------------------------ *)

Lemma handled_Exception e : handled [Exception] e = issubclass e Exception.
Proof. unfold handled; simpl. apply orb_false_r. Qed.

(** What [call_hook] does, case by case. *)
Lemma call_hook_cases import_function run instance w :
  let hook := Task.hook instance in
  let name := Task.name instance in
  let failed e := Signals.logger_error (Signals.return_hook_failed hook name e) in
  (* no hook *)
  (truthy hook = false
   /\ Signals.call_hook import_function run instance w = (Return tt, w))
  (* the reference does not resolve *)
  \/ (exists e, truthy hook = true /\ callable hook = false
        /\ import_function hook = Raise e
        /\ Signals.call_hook import_function run instance w
           = if handled [ValueError; ImportError; AttributeError] e
             then (Return tt,
                   Signals.logger_error
                     (Signals.malformed_return_hook hook name) w)
             else (Raise e, w))
  (* it resolves to something that cannot be called *)
  \/ (exists g, truthy hook = true /\ callable hook = false
        /\ import_function hook = Return g /\ callable g = false
        /\ Signals.call_hook import_function run instance w
           = (Return tt, failed TypeError w))
  (* a callable is called *)
  \/ (exists c, truthy hook = true
        /\ resolves_to import_function hook c
        /\ let w1 := Signals.mkEnv (Signals.log w)
                       ((c, instance) :: Signals.called w) in
           Signals.call_hook import_function run instance w
           = match run c instance with
             | Return _ => (Return tt, w1)
             | Raise e => if issubclass e Exception
                          then (Return tt, failed e w1)
                          else (Raise e, w1)
             end).
Proof.
  intros hook name failed. subst hook name failed.
  unfold Signals.call_hook, Signals.resolve.
  destruct (truthy (Task.hook instance)) eqn:T; [| left; auto].
  right.
  destruct (callable (Task.hook instance)) eqn:Cb; cbn [negb].
  - right; right.
    destruct (Task.hook instance) as [| | | | c] eqn:Hk; try discriminate.
    exists c. split; [reflexivity |]. split; [now left |].
    unfold Signals.call. cbv zeta.
    destruct (run c instance) as [[] | e]; [reflexivity |].
    rewrite handled_Exception. reflexivity.
  - destruct (import_function (Task.hook instance)) as [g | e] eqn:I.
    + right. destruct (callable g) eqn:G.
      * right. destruct g as [| | | | c]; try discriminate.
        exists c. split; [reflexivity |]. split; [right; auto |].
        unfold Signals.call. cbv zeta.
        destruct (run c instance) as [[] | e]; [reflexivity |].
        rewrite handled_Exception. reflexivity.
      * left. exists g. repeat split; auto.
        destruct g; try discriminate; reflexivity.
    + left. exists e. repeat split; auto.
      destruct (handled [ValueError; ImportError; AttributeError] e);
        reflexivity.
Qed.

Lemma resolves_to_unique import_function hook c c' :
  resolves_to import_function hook c ->
  resolves_to import_function hook c' -> c = c'.
Proof.
  unfold resolves_to.
  intros [E | [Cb E]] [E' | [Cb' E']]; subst; simpl in *; congruence.
Qed.

(** C2 (amended) — On a Task save with a hook: (a) if resolving the hook
    reference raises ValueError, ImportError or AttributeError, or a class
    derived from one of them, the failure is logged and swallowed: no
    callable is called, [save] returns normally and the store is exactly
    as [save] wrote it; (b) if the callable the hook resolves to raises an
    exception derived from Exception, that exception is caught and logged
    after the call and [save] returns normally; (c) an exception of any
    other class raised while resolving, and an exception that does not
    derive from Exception raised by the callable, escapes to the caller of
    [save]. *)
Theorem hook_failures_isolated
    (import_function : value -> outcome value)
    (run : nat -> Task.t -> outcome unit)
    (instance : Task.t) (db : DB) (w : Signals.env) :
  let saved := Signals.Task_save import_function run instance db w in
  (forall s e,
     Task.hook instance = VStr s -> s <> "" ->
     import_function (VStr s) = Raise e ->
     handled [ValueError; ImportError; AttributeError] e = true ->
     saved = (Return tt, write_task instance db,
              Signals.logger_error
                (Signals.malformed_return_hook (VStr s) (Task.name instance))
                w))
  /\ (forall c e,
        truthy (Task.hook instance) = true ->
        resolves_to import_function (Task.hook instance) c ->
        run c instance = Raise e ->
        issubclass e Exception = true ->
        fst (fst saved) = Return tt
        /\ snd saved
           = Signals.logger_error
               (Signals.return_hook_failed (Task.hook instance)
                  (Task.name instance) e)
               (Signals.mkEnv (Signals.log w)
                  ((c, instance) :: Signals.called w)))
  /\ (forall e,
        truthy (Task.hook instance) = true ->
        callable (Task.hook instance) = false ->
        import_function (Task.hook instance) = Raise e ->
        handled [ValueError; ImportError; AttributeError] e = false ->
        fst (fst saved) = Raise e)
  /\ (forall c e,
        truthy (Task.hook instance) = true ->
        resolves_to import_function (Task.hook instance) c ->
        run c instance = Raise e ->
        issubclass e Exception = false ->
        fst (fst saved) = Raise e).
Proof.
  intros saved. subst saved. unfold Signals.Task_save.
  destruct (call_hook_cases import_function run instance w)
    as [[T E] | [(e0 & T & Cb & I & E) | [(g & T & Cb & I & G & E)
       | (c0 & T & R & E)]]]; cbv zeta in E; rewrite E; clear E.
  - (* no hook *)
    split; [| split; [| split]].
    + intros s e Hk Hs. rewrite Hk in T. simpl in T.
      apply String.eqb_neq in Hs. rewrite Hs in T. discriminate T.
    + intros; congruence.
    + intros; congruence.
    + intros; congruence.
  - (* the reference does not resolve *)
    assert (Hno : forall c, ~ resolves_to import_function
                               (Task.hook instance) c).
    { intros c [Ec | [_ Ec]]; [| congruence].
      rewrite Ec in Cb. discriminate Cb. }
    split; [| split; [| split]].
    + intros s e Hk Hs I' He. rewrite Hk in *.
      assert (e0 = e) by congruence. subst e0. now rewrite He.
    + intros c e _ Rc. now destruct (Hno c).
    + intros e _ _ I' He.
      assert (e0 = e) by congruence. subst e0. now rewrite He.
    + intros c e _ Rc. now destruct (Hno c).
  - (* it resolves to something that cannot be called *)
    assert (Hno : forall c, ~ resolves_to import_function
                               (Task.hook instance) c).
    { intros c [Ec | [_ Ec]].
      - rewrite Ec in Cb. discriminate Cb.
      - rewrite I in Ec. inversion Ec; subst g. discriminate G. }
    split; [| split; [| split]].
    + intros s e Hk _ I'. rewrite Hk in I. congruence.
    + intros c e _ Rc. now destruct (Hno c).
    + intros; congruence.
    + intros c e _ Rc. now destruct (Hno c).
  - (* a callable is called *)
    assert (Hc : forall c, resolves_to import_function (Task.hook instance) c
                           -> c = c0)
      by (intros c Rc; exact (resolves_to_unique _ _ _ _ Rc R)).
    assert (Hyes : forall e, callable (Task.hook instance) = false ->
                             import_function (Task.hook instance) = Raise e ->
                             False).
    { intros e Cb I. destruct R as [Ec | [_ Ec]]; [| congruence].
      rewrite Ec in Cb. discriminate Cb. }
    split; [| split; [| split]].
    + intros s e Hk _ I'. exfalso. apply (Hyes e).
      * now rewrite Hk.
      * now rewrite Hk.
    + intros c e _ Rc Hrun He. rewrite (Hc c Rc) in *.
      rewrite Hrun, He. split; reflexivity.
    + intros e _ Cb I. now destruct (Hyes e).
    + intros c e _ Rc Hrun He. rewrite (Hc c Rc) in *.
      rewrite Hrun, He. reflexivity.
Qed.

Lemma hook_failures_isolated_witness :
  Signals.Task_save SampleHooks.import_function SampleHooks.run
    (SampleHooks.finished (VStr "nodots")) Sample.db SampleHooks.quiet
  = (Return tt,
     write_task (SampleHooks.finished (VStr "nodots")) Sample.db,
     Signals.logger_error
       (Signals.malformed_return_hook (VStr "nodots") "alpha")
       SampleHooks.quiet)
  /\ fst (fst (Signals.Task_save SampleHooks.import_function SampleHooks.run
                 (SampleHooks.finished (VStr "hooks.broken")) Sample.db
                 SampleHooks.quiet))
     = Return tt.
Proof.
  split.
  - apply (proj1 (hook_failures_isolated SampleHooks.import_function
                    SampleHooks.run (SampleHooks.finished (VStr "nodots"))
                    Sample.db SampleHooks.quiet) "nodots" ValueError).
    + reflexivity.
    + discriminate.
    + reflexivity.
    + reflexivity.
  - apply (proj1 (proj2 (hook_failures_isolated SampleHooks.import_function
                           SampleHooks.run
                           (SampleHooks.finished (VStr "hooks.broken"))
                           Sample.db SampleHooks.quiet)) 1 RuntimeError).
    + reflexivity.
    + right. split; reflexivity.
    + reflexivity.
    + reflexivity.
Defined.


(** One run of [call_hook] calls at most one callable, once, namely the
    one the hook resolves to, and writes at most one log record; when the
    callable returns normally nothing is logged, and when an exception
    escapes nothing is logged either. *)
Theorem hook_effects_bounded
    (import_function : value -> outcome value)
    (run : nat -> Task.t -> outcome unit)
    (instance : Task.t) (w : Signals.env) :
  let w' := snd (Signals.call_hook import_function run instance w) in
  (Signals.called w' = Signals.called w
   \/ exists c, resolves_to import_function (Task.hook instance) c
                /\ Signals.called w' = (c, instance) :: Signals.called w)
  /\ (Signals.log w' = Signals.log w
      \/ exists r, Signals.log w' = r :: Signals.log w)
  /\ (forall c, truthy (Task.hook instance) = true ->
        resolves_to import_function (Task.hook instance) c ->
        run c instance = Return tt ->
        w' = Signals.mkEnv (Signals.log w)
               ((c, instance) :: Signals.called w))
  /\ (forall e,
        fst (Signals.call_hook import_function run instance w) = Raise e ->
        Signals.log w' = Signals.log w).
Proof.
  intros w'. subst w'.
  destruct (call_hook_cases import_function run instance w)
    as [[T E] | [(e0 & T & Cb & I & E) | [(g & T & Cb & I & G & E)
       | (c & T & R & E)]]]; cbv zeta in E; rewrite E; clear E.
  - cbn [snd fst]. split; [now left |]. split; [now left |].
    split; [intros; congruence | intros; discriminate].
  - destruct (handled [ValueError; ImportError; AttributeError] e0);
      cbn [snd fst].
    + split; [now left |]. split; [right; eexists; reflexivity |].
      split; [| intros; discriminate].
      intros c _ [Ec | [_ Ec]] _; [| congruence].
      rewrite Ec in Cb. discriminate Cb.
    + split; [now left |]. split; [now left |].
      split; [| reflexivity].
      intros c _ [Ec | [_ Ec]] _; [| congruence].
      rewrite Ec in Cb. discriminate Cb.
  - cbn [snd fst]. split; [now left |].
    split; [right; eexists; reflexivity |].
    split; [| intros; discriminate].
    intros c _ [Ec | [_ Ec]] _.
    + rewrite Ec in Cb. discriminate Cb.
    + rewrite I in Ec. inversion Ec; subst g. discriminate G.
  - assert (Hc : forall c', resolves_to import_function (Task.hook instance) c'
                            -> c' = c)
      by (intros c' R'; exact (resolves_to_unique _ _ _ _ R' R)).
    destruct (run c instance) as [[] | e1] eqn:Rc; cbn [snd fst].
    + split; [right; exists c; auto |]. split; [now left |].
      split; [| intros; discriminate].
      intros c' _ R' _. now rewrite (Hc c' R').
    + destruct (issubclass e1 Exception); cbn [snd fst].
      * split; [right; exists c; auto |].
        split; [right; eexists; reflexivity |].
        split; [| intros; discriminate].
        intros c' _ R' Rc'. rewrite (Hc c' R') in Rc'. congruence.
      * split; [right; exists c; auto |]. split; [now left |].
        split; [| reflexivity].
        intros c' _ R' Rc'. rewrite (Hc c' R') in Rc'. congruence.
Qed.

Lemma hook_effects_bounded_witness :
  snd (Signals.call_hook SampleHooks.import_function SampleHooks.run
         (SampleHooks.finished (VStr "hooks.done")) SampleHooks.quiet)
  = Signals.mkEnv [] [(0, SampleHooks.finished (VStr "hooks.done"))].
Proof.
  apply (proj1 (proj2 (proj2 (hook_effects_bounded
                                SampleHooks.import_function SampleHooks.run
                                (SampleHooks.finished (VStr "hooks.done"))
                                SampleHooks.quiet))) 0).
  - reflexivity.
  - right. split; reflexivity.
  - reflexivity.
Defined.

(** A hook reference that resolves to something that is not callable
    does no harm: nothing is called, the TypeError of the attempted call is
    caught and logged, [save] returns normally and the row is written. *)
Theorem unusable_hook_is_logged
    (import_function : value -> outcome value)
    (run : nat -> Task.t -> outcome unit)
    (instance : Task.t) (db : DB) (w : Signals.env) (g : value)
    (T : truthy (Task.hook instance) = true)
    (Cb : callable (Task.hook instance) = false)
    (I : import_function (Task.hook instance) = Return g)
    (G : callable g = false) :
  Signals.Task_save import_function run instance db w
  = (Return tt, write_task instance db,
     Signals.logger_error
       (Signals.return_hook_failed (Task.hook instance) (Task.name instance)
          TypeError) w).
Proof.
  unfold Signals.Task_save.
  destruct (call_hook_cases import_function run instance w)
    as [[T' E] | [(e0 & _ & _ & I' & E) | [(g' & _ & _ & I' & G' & E)
       | (c & _ & R & E)]]]; cbv zeta in E.
  - congruence.
  - congruence.
  - now rewrite E.
  - exfalso. destruct R as [Ec | [_ Ec]].
    + rewrite Ec in Cb. discriminate Cb.
    + rewrite I in Ec. inversion Ec; subst g. discriminate G.
Qed.

Lemma unusable_hook_is_logged_witness :
  Signals.Task_save SampleMore.import_number SampleHooks.run
    (SampleHooks.finished (VStr "math.pi")) Sample.db SampleHooks.quiet
  = (Return tt,
     write_task (SampleHooks.finished (VStr "math.pi")) Sample.db,
     Signals.logger_error
       (Signals.return_hook_failed (VStr "math.pi") "alpha" TypeError)
       SampleHooks.quiet).
Proof.
  apply (unusable_hook_is_logged SampleMore.import_number SampleHooks.run
           (SampleHooks.finished (VStr "math.pi")) Sample.db
           SampleHooks.quiet (VInt 3)); reflexivity.
Defined.

(* ------------------------------------------------------------------ *)
(** * Further properties: validate_cron and the validated write        *)
(* ------------------------------------------------------------------ *)

(** [validate_cron] never lets a ValueError out: whatever it raises is
    ImportError (croniter missing), ValidationError, or an exception of
    [croniter.expand] that is not a ValueError, passed on unchanged. *)
Theorem validate_cron_raises_no_ValueError
    (croniter : option Croniter) (v : value) (e : exn)
    (H : validate_cron croniter v = Raise e) :
  issubclass e ValueError = false
  /\ ((croniter = None /\ e = ImportError)
      \/ (exists c e0, croniter = Some c /\ expand c v = Raise e0
                       /\ issubclass e0 ValueError = true
                       /\ e = ValidationError)
      \/ (exists c, croniter = Some c /\ expand c v = Raise e
                    /\ issubclass e ValueError = false)).
Proof.
  unfold validate_cron, try_except, handled in H.
  destruct croniter as [c |].
  - destruct (expand c v) as [[] | e0] eqn:X; [discriminate |].
    simpl in H. rewrite orb_false_r in H.
    destruct (issubclass e0 ValueError) eqn:S.
    + inversion H; subst e. split; [reflexivity |].
      right; left. exists c, e0. auto.
    + inversion H; subst e. split; [exact S |].
      right; right. exists c. auto.
  - inversion H; subst e. split; [reflexivity | left; auto].
Qed.

Lemma validate_cron_raises_no_ValueError_witness :
  issubclass ValidationError ValueError = false.
Proof.
  apply (validate_cron_raises_no_ValueError (Some SampleSchedule.croniter)
           (VStr "every day") ValidationError).
  reflexivity.
Defined.

(** Two field lists that differ only in fields skipped as blank clean
    alike. *)
Lemma clean_fields_skip range fs gs errors :
  Forall2 (fun p q =>
             p = q
             \/ (Field.blank (fst p) && Field.empty (snd p) = true
                 /\ Field.blank (fst q) && Field.empty (snd q) = true))
          fs gs ->
  Field.clean_fields range fs errors = Field.clean_fields range gs errors.
Proof.
  intros F. revert errors.
  induction F as [| [f raw] [g raw'] fs gs H _ IH]; intros errors; simpl.
  - reflexivity.
  - destruct H as [E | [B B']].
    + inversion E; subst.
      destruct (Field.blank g && Field.empty raw'); [apply IH |].
      destruct (Field.clean range g raw') as [a | e]; [apply IH |].
      destruct (issubclass e ValidationError); [apply IH | reflexivity].
    + simpl in B, B'. rewrite B, B'. apply IH.
Qed.

(** A schedule without cron expression is validated without croniter:
    when [cron] is null or empty, [full_clean] gives the same outcome
    whether croniter is installed or not, and whatever it would say. *)
Theorem full_clean_without_cron_ignores_croniter
    (c1 c2 : option Croniter)
    (range : Field.kind -> option Z * option Z) (s : Schedule.t)
    (Hblank : blank_text (Schedule.cron s)) :
  Schedule.full_clean c1 range s = Schedule.full_clean c2 range s.
Proof.
  unfold Schedule.full_clean. apply clean_fields_skip.
  unfold Schedule.fields.
  repeat (apply Forall2_cons; [try (left; reflexivity) |]);
    [| apply Forall2_nil].
  right. destruct Hblank as [-> | ->]; split; reflexivity.
Qed.

Lemma full_clean_without_cron_ignores_croniter_witness :
  Schedule.full_clean None SampleSchedule.integer_field_range
    (SampleSchedule.make Schedule.MINUTES (Some 15%Z) None)
  = Schedule.full_clean (Some SampleSchedule.croniter)
      SampleSchedule.integer_field_range
      (SampleSchedule.make Schedule.MINUTES (Some 15%Z) None).
Proof.
  apply (full_clean_without_cron_ignores_croniter None
           (Some SampleSchedule.croniter) SampleSchedule.integer_field_range).
  left. reflexivity.
Defined.

(** Fields that raise nothing but ValidationError do not stop
    [clean_fields] from reaching a later field, whose other exception then
    comes out. *)
Lemma clean_fields_reaches range before f raw after errors e :
  Forall (fun p => only_validation_errors
                     (Field.clean range (fst p) (snd p))) before ->
  Field.blank f && Field.empty raw = false ->
  Field.clean range f raw = Raise e ->
  issubclass e ValidationError = false ->
  Field.clean_fields range (before ++ (f, raw) :: after) errors = Raise e.
Proof.
  intros F B C S. revert errors.
  induction F as [| [g raw'] rest Hg _ IH]; intros errors; simpl.
  - now rewrite B, C, S.
  - destruct (Field.blank g && Field.empty raw'); [apply IH |].
    destruct (Field.clean range g raw') as [a | e0] eqn:Cg; [apply IH |].
    simpl in Hg. rewrite (Hg e0 Cg). simpl. apply IH.
Qed.

(** Without croniter a schedule with a cron expression cannot be
    validated at all: [full_clean] raises ImportError, not
    ValidationError, whatever the other fields hold. *)
Theorem full_clean_needs_croniter_for_cron
    (range : Field.kind -> option Z * option Z) (s : Schedule.t) (x : string)
    (Hcron : Schedule.cron s = Some x) (Hx : x <> "") :
  Schedule.full_clean None range s = Raise ImportError.
Proof.
  unfold Schedule.full_clean, Schedule.fields. rewrite Hcron.
  apply String.eqb_neq in Hx.
  match goal with
  | |- Field.clean_fields _
         [?a; ?b; ?c; ?d; ?e; ?f; ?g; ?h; ?i; ?j; (?fc, ?rc); ?k] _ = _ =>
      change (Field.clean_fields range
                ([a; b; c; d; e; f; g; h; i; j] ++ (fc, rc) :: [k]) false
              = Raise ImportError)
  end.
  apply clean_fields_reaches.
  - repeat apply Forall_cons; try apply Forall_nil;
      apply clean_tame; simpl; constructor.
  - simpl. now rewrite Hx.
  - unfold Field.clean, Field.run_validators; simpl. rewrite Hx. reflexivity.
  - reflexivity.
Qed.

Lemma full_clean_needs_croniter_for_cron_witness :
  Schedule.full_clean None SampleSchedule.integer_field_range
    (SampleSchedule.make Schedule.CRON None (Some "0 0 * * *"))
  = Raise ImportError.
Proof.
  apply (full_clean_needs_croniter_for_cron
           SampleSchedule.integer_field_range
           (SampleSchedule.make Schedule.CRON None (Some "0 0 * * *"))
           "0 0 * * *").
  - reflexivity.
  - discriminate.
Defined.

(** Field by field: what makes a declared Schedule field pass. *)
Lemma range_validators_pass range k z :
  Field.run_all (Field.range_validators range k) (VInt z) false = Return tt
  <-> in_range range k z.
Proof.
  unfold Field.range_validators, in_range.
  destruct (range k) as [[lo |] [hi |]]; simpl;
    unfold Field.MinValueValidator, Field.MaxValueValidator;
    repeat match goal with
           | |- context [Z.ltb ?a ?b] => destruct (Z.ltb_spec a b)
           end; simpl; split;
    try discriminate; try reflexivity;
    try (intros _; split; intros ? E; inversion E; subst; lia);
    try (intros [Hlo Hhi];
         try specialize (Hlo _ eq_refl); try specialize (Hhi _ eq_refl); lia).
Qed.

Lemma ok_integer_blank range name kind null o :
  kind = Field.AutoField \/ kind = Field.PositiveSmallIntegerField ->
  field_ok range
    (Field.Build name kind null true true None [], Schedule.of_opt_int o)
  <-> (forall k, o = Some k -> in_range range kind k).
Proof.
  intros K. unfold field_ok. destruct o as [z |]; simpl.
  - assert (Hclean :
              Field.clean range
                (Field.Build name kind null true true None []) (VInt z)
              = Field.run_all (Field.range_validators range kind) (VInt z)
                  false).
    { unfold Field.clean, Field.run_validators, Field.all_validators; simpl.
      destruct K as [-> | ->]; simpl; now rewrite app_nil_r. }
    rewrite Hclean. split.
    + intros [H | H]; [discriminate H |].
      intros k E. inversion E; subst. now apply range_validators_pass.
    + intros H. right. apply range_validators_pass. now apply H.
  - split; [intros _ k E; discriminate E | intros _; now left].
Qed.

Lemma ok_repeats range z :
  field_ok range
    (Field.Build "repeats" Field.IntegerField false false true None [], VInt z)
  <-> in_range range Field.IntegerField z.
Proof.
  rewrite <- range_validators_pass. unfold field_ok; simpl.
  unfold Field.clean, Field.run_validators, Field.all_validators; simpl.
  rewrite app_nil_r. split; [intros [H | H]; [discriminate H | exact H] | auto].
Qed.

Lemma ok_text_blank range name n null o :
  field_ok range
    (Field.Build name (Field.CharField n) null true true None [], of_opt_str o)
  <-> text_within n o.
Proof.
  unfold field_ok, text_within. destruct o as [x |]; simpl.
  - destruct (String.eqb_spec x "") as [-> | Hne]; simpl.
    + split; [intros _ y E; inversion E; subst; simpl; lia | now left].
    + unfold Field.clean, Field.run_validators, Field.all_validators; simpl.
      apply String.eqb_neq in Hne. rewrite Hne. simpl.
      destruct (Nat.ltb_spec n (String.length x)); simpl; split.
      * intros [H0 | H0]; discriminate H0.
      * intros H0. specialize (H0 x eq_refl). lia.
      * intros _ y E. now inversion E; subst.
      * intros _. now right.
  - split; [intros _ y E; discriminate E | now left].
Qed.

Lemma ok_task range o :
  field_ok range
    (Field.Build "task" (Field.CharField 100) true false false None [],
     of_opt_str o)
  <-> text_within 100 o.
Proof.
  unfold field_ok, text_within. destruct o as [x |]; simpl.
  - unfold Field.clean, Field.run_validators, Field.all_validators; simpl.
    destruct (String.eqb_spec x "") as [-> | Hne]; simpl.
    + split; [intros _ y E; inversion E; subst; simpl; lia | now right].
    + destruct (Nat.ltb_spec 100 (String.length x)); simpl; split.
      * intros [H0 | H0]; discriminate H0.
      * intros H0. specialize (H0 x eq_refl). lia.
      * intros _ y E. now inversion E; subst.
      * intros _. now right.
  - split; [intros _ y E; discriminate E | now right].
Qed.

Lemma ok_func range x :
  field_ok range
    (Field.Build "func" (Field.CharField 256) false false true None [], VStr x)
  <-> x <> "" /\ String.length x <= 256.
Proof.
  unfold field_ok; simpl.
  unfold Field.clean, Field.run_validators, Field.validate,
    Field.all_validators; simpl.
  destruct (String.eqb_spec x "") as [-> | Hne]; simpl.
  - split; [intros [H | H]; discriminate H | intros [H _]; now contradiction H].
  - destruct (Nat.ltb_spec 256 (String.length x)); simpl; split.
    + intros [H0 | H0]; discriminate H0.
    + intros [_ H0]. lia.
    + intros _. split; [exact Hne | lia].
    + intros _. now right.
Qed.

Lemma ok_textfield range name o :
  field_ok range
    (Field.Build name Field.TextField true true true None [], of_opt_str o).
Proof.
  unfold field_ok. destruct o as [x |]; simpl; [| now left].
  destruct (String.eqb x "") eqn:E; simpl; [now left |].
  right. unfold Field.clean, Field.run_validators; simpl. now rewrite E.
Qed.

Lemma ok_next_run range o :
  field_ok range
    (Field.Build "next_run" Field.DateTimeField true false true None [],
     Schedule.of_opt_int o)
  <-> o <> None.
Proof.
  unfold field_ok. destruct o as [z |]; simpl.
  - split; [discriminate | intros _; now right].
  - split; [intros [H | H]; discriminate H | intros H; now contradiction H].
Qed.

Lemma ok_schedule_type range ty :
  field_ok range
    (Field.Build "schedule_type" (Field.CharField 1) false false true
       (Some Schedule.TYPE) [], VStr ty)
  <-> In ty (map fst Schedule.TYPE).
Proof.
  split.
  - unfold field_ok; simpl. intros [H | H]; [discriminate H |].
    unfold Field.clean, Field.validate in H; simpl in H.
    repeat match type of H with
           | context [String.eqb ty ?k] =>
               destruct (String.eqb_spec ty k); [subst; simpl; tauto |]
           end.
    simpl in H. destruct (String.eqb ty ""); discriminate H.
  - simpl. intros H. right.
    repeat (destruct H as [<- | H]; [reflexivity |]). contradiction.
Qed.

Lemma ok_cron croniter range o :
  field_ok range
    (Field.Build "cron" (Field.CharField 100) true true true None
       [validate_cron croniter], of_opt_str o)
  <-> blank_text o
      \/ exists x, o = Some x /\ validate_cron croniter (VStr x) = Return tt
                   /\ String.length x <= 100.
Proof.
  unfold field_ok, blank_text. destruct o as [x |]; simpl.
  - destruct (String.eqb_spec x "") as [-> | Hne]; simpl.
    + split; [intros _; left; now right | intros _; now left].
    + unfold Field.clean, Field.run_validators, Field.all_validators; simpl.
      apply String.eqb_neq in Hne. rewrite Hne. simpl.
      apply String.eqb_neq in Hne.
      destruct (validate_cron croniter (VStr x)) as [[] | e] eqn:V.
      * destruct (Nat.ltb_spec 100 (String.length x)); simpl; split.
        -- intros [H0 | H0]; discriminate H0.
        -- intros [[H0 | H0] | (y & E & _ & L)];
             [discriminate H0 | congruence |].
           inversion E; subst y. lia.
        -- intros _. right. exists x.
           split; [reflexivity | split; [exact V | lia]].
        -- intros _. now right.
      * split.
        -- intros [H0 | H0]; [discriminate H0 |]. exfalso.
           destruct (issubclass e ValidationError); [| discriminate H0].
           destruct (Nat.ltb 100 (String.length x)); discriminate H0.
        -- intros [[H0 | H0] | (y & E & V' & _)];
             [discriminate H0 | congruence |].
           inversion E; subst y. congruence.
  - split; [intros _; left; now left | intros _; now left].
Qed.

(** What the field checks accept, exactly: [clean_fields] on a Schedule
    raises nothing if and only if [func] is non-empty and at most 256
    long, [name], [hook] and [task] are within their lengths,
    [schedule_type] is one of the nine codes, [id], [minutes] and
    [repeats] are within the backend's ranges, [next_run] is not null, and
    [cron] is empty or passes [validate_cron] within 100 characters;
    [args] and [kwargs] are free. *)
Theorem clean_fields_accepts_exactly
    (croniter : option Croniter)
    (range : Field.kind -> option Z * option Z) (s : Schedule.t) :
  Schedule_clean_fields croniter range s = Return tt
  <-> schedule_acceptable croniter range s.
Proof.
  unfold Schedule_clean_fields. rewrite clean_fields_ok.
  unfold Schedule.fields, schedule_acceptable.
  repeat rewrite Forall_cons_iff. rewrite Forall_nil_iff.
  rewrite (ok_integer_blank range "id" Field.AutoField false) by now left.
  rewrite (ok_integer_blank range "minutes" Field.PositiveSmallIntegerField
             true) by now right.
  rewrite !ok_text_blank, ok_func, ok_schedule_type, ok_repeats, ok_next_run,
    ok_cron, ok_task.
  pose proof (ok_textfield range "args" (Schedule.args s)) as Ha.
  pose proof (ok_textfield range "kwargs" (Schedule.kwargs s)) as Hk.
  tauto.
Qed.

(* ------------------------------------------------------------------ *)
(** * Further properties: the foreign keys of Worker                   *)
(* ------------------------------------------------------------------ *)

Lemma delete_tasks_keeps_references ids db :
  references_ok db -> references_ok (delete_tasks ids db).
Proof.
  intros OK w Hw. unfold delete_tasks in *; simpl in *.
  unfold Worker.task_on_delete, collect in Hw.
  apply in_map_iff in Hw as (w0 & E & Hw0).
  destruct (OK w0 Hw0) as [Htask Hcluster].
  destruct (Worker.refers_task ids w0) eqn:R; subst w.
  - split; [intros k Hk; discriminate Hk | exact Hcluster].
  - split; [| exact Hcluster].
    intros k Hk. destruct (Htask k Hk) as (t & Hin & Hid).
    exists t. split; [| exact Hid].
    apply filter_In. split; [exact Hin |].
    unfold Worker.refers_task in R. rewrite Hk in R.
    rewrite Hid. apply negb_true_iff. exact R.
Qed.

Lemma delete_clusters_keeps_references ids db :
  references_ok db -> references_ok (delete_clusters ids db).
Proof.
  intros OK w Hw. unfold delete_clusters in *; simpl in *.
  unfold Worker.cluster_on_delete, collect in Hw.
  apply filter_In in Hw as [Hw R]. apply negb_true_iff in R.
  destruct (OK w Hw) as [Htask (c & Hc & Hid)].
  split; [exact Htask |].
  exists c. split; [| exact Hid].
  apply filter_In. split; [exact Hc |].
  apply negb_true_iff. rewrite Hid. exact R.
Qed.

Lemma upsert_task_has_id r rows t :
  In t rows -> exists t', In t' (upsert_task r rows) /\ Task.id t' = Task.id t.
Proof.
  induction rows as [| x rest IH]; simpl; [tauto |].
  intros [-> | Hin].
  - destruct (String.eqb_spec (Task.id t) (Task.id r)) as [E | N].
    + exists r. split; [now left | now rewrite E].
    + exists t. split; [now left | reflexivity].
  - destruct (String.eqb (Task.id x) (Task.id r)).
    + exists t. split; [now right | reflexivity].
    + destruct (IH Hin) as (t' & Hin' & E). exists t'. split; [now right | exact E].
Qed.

(** The foreign keys of Worker stay good: if every Worker's task (when
    set) and cluster are stored rows, this still holds after deleting a
    Task, after deleting a Cluster, after a bulk delete of a Task query
    set, and after saving a Task. *)
Theorem worker_references_kept (db : DB) (OK : references_ok db) :
  (forall t, references_ok (snd (Task_delete t db)))
  /\ (forall c, references_ok (snd (Cluster_delete c db)))
  /\ (forall qs, references_ok (snd (QuerySet.delete qs db)))
  /\ (forall import_function run instance w,
        references_ok
          (snd (fst (Signals.Task_save import_function run instance db w)))).
Proof.
  split; [| split; [| split]].
  - intros t. now apply delete_tasks_keeps_references.
  - intros c. now apply delete_clusters_keeps_references.
  - intros qs. now apply delete_tasks_keeps_references.
  - intros import_function run instance w.
    unfold Signals.Task_save.
    destruct (Signals.call_hook import_function run instance w) as [r w'].
    simpl. intros x Hx. destruct (OK x Hx) as [Htask Hcluster].
    split; [| exact Hcluster].
    intros k Hk. destruct (Htask k Hk) as (t & Hin & Hid).
    destruct (upsert_task_has_id instance (tasks db) t Hin) as (t' & Hin' & E).
    exists t'. split; [exact Hin' | congruence].
Qed.

Lemma worker_references_kept_witness :
  references_ok (snd (Task_delete Sample.t1 SampleWorkers.db)).
Proof.
  apply (worker_references_kept SampleWorkers.db).
  intros w Hw. simpl in Hw.
  destruct Hw as [<- | [<- | [<- | []]]]; simpl; split.
  - intros k E. inversion E; subst. exists Sample.t1. simpl. auto.
  - exists SampleWorkers.c1. simpl. auto.
  - intros k E. inversion E; subst. exists Sample.t2. simpl. auto.
  - exists SampleWorkers.c1. simpl. auto.
  - intros k E. discriminate E.
  - exists SampleWorkers.c2. simpl. auto.
Defined.
